(** * Roxxllm / long-form-memory-ai front end: shallow embedding and properties

    The development follows the layout of the repository:
    - [ThemeContext]: the theme provider (getInitialTheme, ThemeProvider,
      toggleTheme) with localStorage as a finite map;
    - [AuthService]: the error mapping of the six authentication calls;
    - [Register]: the submit handler of the registration form;
    - [ChatWindow]: the scroll-follow effects and the sidebar of the chat screen;
    - [ChatEngine]: the conversation and streaming-message state engine
      (Message Timeline, Streaming Session, Chat Engine);
    - [MessageList]: what the message list renders;
    - [App]: the routes and the private route. *)

From Stdlib Require Import ZArith Lia Sorted Ascii String.
From stdpp Require Import gmap strings list.

Local Open Scope string_scope.
Local Open Scope list_scope.

(** JavaScript [===] on two strings. *)
Definition str_eq (a b : string) : bool := String.eqb a b.

(** JavaScript truthiness of a value that is a string or null. *)
Definition truthy (v : option string) : bool :=
  match v with
  | Some s => negb (str_eq s "")
  | None => false
  end.

(* ===================================================================== *)
(** * contexts/ThemeContext *)
(* ===================================================================== *)

Module ThemeContext.

Definition THEME_STORAGE_KEY : string := "memory-ai-theme".

(** [window.matchMedia(query)] returns a MediaQueryList; the function itself
    may be missing from [window] (the source guards it with [&&]). *)
Record MediaQueryList := { matches : bool }.
Record Window := { matchMedia : option (string -> MediaQueryList) }.

(** [window.matchMedia && window.matchMedia('(prefers-color-scheme: dark)').matches],
    used as a condition: an absent [matchMedia] is falsy. *)
Definition prefersDark (window : Window) : bool :=
  match matchMedia window with
  | Some mm => matches (mm "(prefers-color-scheme: dark)")
  | None => false
  end.

(** [localStorage.getItem] is the lookup of a finite map: [None] is JS null. *)
Definition getInitialTheme (localStorage : gmap string string) (window : Window) : string :=
  let stored := localStorage !! THEME_STORAGE_KEY in
  match stored with
  | Some s =>
      if str_eq s "light" || str_eq s "dark" then s
      else if prefersDark window then "dark" else "light"
  | None => if prefersDark window then "dark" else "light"
  end.

(** What the provider owns or writes: the [theme] state cell, the
    [data-theme] attribute of the document element, and localStorage. *)
Record Provider := {
  theme : string;
  data_theme : option string;
  localStorage : gmap string string
}.

(** The body of [useEffect(..., [theme])]. *)
Definition themeEffect (p : Provider) : Provider :=
  {| theme := theme p;
     data_theme := Some (theme p);
     localStorage := <[THEME_STORAGE_KEY := theme p]> (localStorage p) |}.

(** First render: [useState(getInitialTheme)], then the effect runs. *)
Definition mount (storage : gmap string string) (window : Window) : Provider :=
  themeEffect {| theme := getInitialTheme storage window;
                 data_theme := None;
                 localStorage := storage |}.

(** [setTheme(updater)]: React compares the next state with the current
    one; an equal state schedules no render, so the effect, whose only
    dependency is [theme], runs exactly when the theme changed. *)
Definition setTheme (updater : string -> string) (p : Provider) : Provider :=
  let next := updater (theme p) in
  if str_eq next (theme p) then p
  else themeEffect {| theme := next;
                      data_theme := data_theme p;
                      localStorage := localStorage p |}.

(** The updater of [toggleTheme]: [prev === 'dark' ? 'light' : 'dark']. *)
Definition toggle (prev : string) : string :=
  if str_eq prev "dark" then "light" else "dark".

Definition toggleTheme (p : Provider) : Provider := setTheme toggle p.

(** What a consumer of the context can do to the theme. *)
Inductive Action :=
| SetTheme (value : string)
| SetThemeWith (updater : string -> string)
| ToggleTheme.

Definition act (p : Provider) (a : Action) : Provider :=
  match a with
  | SetTheme v => setTheme (fun _ => v) p
  | SetThemeWith f => setTheme f p
  | ToggleTheme => toggleTheme p
  end.

Definition run (p : Provider) (actions : list Action) : Provider :=
  foldl act p actions.

(** The storage is in step with the state cell. *)
Definition persisted (p : Provider) : Prop :=
  localStorage p !! THEME_STORAGE_KEY = Some (theme p).

(** [isDark: theme === 'dark'] of the context value. *)
Definition isDark (p : Provider) : bool := str_eq (theme p) "dark".

End ThemeContext.

(* ===================================================================== *)
(** * services/authService *)
(* ===================================================================== *)

Module AuthService.

(** The rejection of an [api] call as the handlers inspect it:
    [error.response?.status], [error.code], and the raw text it carries. *)
Record Response := { status : Z }.
Record TransportFailure := {
  response : option Response;
  code : option string;
  raw_message : string
}.

(** A value thrown to the caller of the service: either the transport's own
    rejection, or a [new Error(message)] built by the service. *)
Inductive Thrown :=
| Raw (e : TransportFailure)
| NewError (message : string).

Inductive Outcome (A : Type) :=
| Resolved (a : A)
| Rejected (t : Thrown).
Arguments Resolved {A} a.
Arguments Rejected {A} t.

(** [error.response?.status === n] *)
Definition status_is (e : TransportFailure) (n : Z) : bool :=
  match response e with
  | Some r => Z.eqb (status r) n
  | None => false
  end.

(** [error.code === 'NETWORK_ERROR'] *)
Definition code_is (e : TransportFailure) (c : string) : bool :=
  match code e with
  | Some c' => str_eq c' c
  | None => false
  end.

Definition NETWORK_MESSAGE : string :=
  "Network connection failed. Please check your internet connection and try again.".

Section Calls.
(** The payload of a successful response is opaque to the service. *)
Context {Data : Type}.

Definition login (api_post : Data + TransportFailure) : Outcome Data :=
  match api_post with
  | inl data => Resolved data
  | inr error =>
      if status_is error 401 then
        Rejected (NewError "Invalid email or password. Please check your credentials and try again.")
      else if status_is error 404 then
        Rejected (NewError "User not found. Please check your email or register for a new account.")
      else if code_is error "NETWORK_ERROR" then
        Rejected (NewError NETWORK_MESSAGE)
      else
        Rejected (NewError "Login failed. Please try again later.")
  end.

Definition register (api_post : Data + TransportFailure) : Outcome Data :=
  match api_post with
  | inl data => Resolved data
  | inr error =>
      if status_is error 400 then
        Rejected (NewError "Invalid registration details. Please check your email, username, and password.")
      else if status_is error 409 then
        Rejected (NewError "Email or username already taken. Please choose a different email or username.")
      else if code_is error "NETWORK_ERROR" then
        Rejected (NewError NETWORK_MESSAGE)
      else
        Rejected (NewError "Registration failed. Please try again later.")
  end.

Definition loginWithGoogle (api_post : Data + TransportFailure) : Outcome Data :=
  match api_post with
  | inl data => Resolved data
  | inr error =>
      if status_is error 400 then
        Rejected (NewError "Google authentication failed. Please try again.")
      else if code_is error "NETWORK_ERROR" then
        Rejected (NewError NETWORK_MESSAGE)
      else
        Rejected (NewError "Google login failed. Please try again later.")
  end.

Definition getMe (api_get : Data + TransportFailure) : Outcome Data :=
  match api_get with
  | inl data => Resolved data
  | inr error =>
      if status_is error 401 then
        Rejected (NewError "Authentication expired. Please log in again.")
      else if code_is error "NETWORK_ERROR" then
        Rejected (NewError NETWORK_MESSAGE)
      else
        Rejected (NewError "Failed to get user information. Please try again.")
  end.

Definition refreshToken (api_post : Data + TransportFailure) : Outcome Data :=
  match api_post with
  | inl data => Resolved data
  | inr error =>
      if status_is error 401 then
        Rejected (NewError "Refresh token expired. Please log in again.")
      else if code_is error "NETWORK_ERROR" then
        Rejected (NewError NETWORK_MESSAGE)
      else
        Rejected (NewError "Token refresh failed. Please log in again.")
  end.

Definition deleteAccount (api_delete : Data + TransportFailure) : Outcome Data :=
  match api_delete with
  | inl data => Resolved data
  | inr error =>
      if status_is error 401 then
        Rejected (NewError "Authentication required. Please log in again.")
      else if status_is error 404 then
        Rejected (NewError "User not found.")
      else if code_is error "NETWORK_ERROR" then
        Rejected (NewError NETWORK_MESSAGE)
      else
        Rejected (NewError "Account deletion failed. Please try again.")
  end.

(** The six operations of the service, and the dispatch to them. *)
Inductive Operation :=
| Login | Register | LoginWithGoogle | GetMe | RefreshToken | DeleteAccount.

Definition call (op : Operation) (api : Data + TransportFailure) : Outcome Data :=
  match op with
  | Login => login api
  | Register => register api
  | LoginWithGoogle => loginWithGoogle api
  | GetMe => getMe api
  | RefreshToken => refreshToken api
  | DeleteAccount => deleteAccount api
  end.
End Calls.

(** The four kinds of failure the specification names, read off a
    rejection the way [login] reads them. *)
Inductive Kind := InvalidCredentials | UserNotFound | NetworkFailure | GenericFallback.

Definition kind_of (e : TransportFailure) : Kind :=
  if status_is e 401 then InvalidCredentials
  else if status_is e 404 then UserNotFound
  else if code_is e "NETWORK_ERROR" then NetworkFailure
  else GenericFallback.

(** The HTTP statuses an operation has a branch for, in source order. *)
Definition handled (op : Operation) : list Z :=
  match op with
  | Login => [401; 404]
  | Register => [400; 409]
  | LoginWithGoogle => [400]
  | GetMe => [401]
  | RefreshToken => [401]
  | DeleteAccount => [401; 404]
  end%Z.

(** The branch of the handler of [op] a rejection falls into. *)
Inductive Branch := ByStatus (s : Z) | ByNetwork | ByFallback.

Definition first_handled (e : TransportFailure) (statuses : list Z) : option Z :=
  List.find (status_is e) statuses.

Definition branch_of (op : Operation) (e : TransportFailure) : Branch :=
  match first_handled e (handled op) with
  | Some s => ByStatus s
  | None => if code_is e "NETWORK_ERROR" then ByNetwork else ByFallback
  end.

(** An operation tells the four kinds apart when rejections of different
    kinds never produce the same outcome. *)
Definition distinguishes_kinds (op : Operation) : Prop :=
  forall e1 e2 : TransportFailure,
    kind_of e1 <> kind_of e2 ->
    call (Data := unit) op (inr e1) <> call op (inr e2).

(** Canonical rejections: an HTTP error response, and a network failure. *)
Definition http_failure (s : Z) (raw : string) : TransportFailure :=
  {| response := Some {| status := s |}; code := None; raw_message := raw |}.

Definition network_failure (raw : string) : TransportFailure :=
  {| response := None; code := Some "NETWORK_ERROR"; raw_message := raw |}.

End AuthService.

(* ===================================================================== *)
(** * components/Auth/Register *)
(* ===================================================================== *)

Module Register.

(** The form state; a string stands for its sequence of UTF-16 code units,
    so [String.length] is the JavaScript [.length]. *)
Record FormData := {
  email : string;
  username : string;
  password : string;
  confirmPassword : string
}.

(** What the handler does to the component and the router, in order. *)
Inductive Effect :=
| PreventDefault
| SetValidationError (message : string)
| Navigate (to : string).

(** A request that reaches the Transport Client. *)
Inductive Request :=
| PostRegister (email username password : string).

Section Handler.
(** [register] of [useAuth()]: the context function is the handler's only
    route to the transport.  It is given by the requests it issues and by
    whether its promise resolves ([true]) or rejects ([false]). *)
Variable register : string -> string -> string -> list Request * bool.

Definition handleSubmit (formData : FormData) : list Effect * list Request :=
  let start := [PreventDefault; SetValidationError ""] in
  if negb (str_eq (password formData) (confirmPassword formData)) then
    (start ++ [SetValidationError "Passwords do not match"], [])
  else if (String.length (password formData) <? 6)%nat then
    (start ++ [SetValidationError "Password must be at least 6 characters"], [])
  else
    let '(sent, resolved) :=
      register (email formData) (username formData) (password formData) in
    if resolved then (start ++ [Navigate "/chat"], sent)
    else (start, sent).
End Handler.

(** The value of the [validationError] state cell after the effects ran
    ([useState('')] at the start). *)
Definition validationError (effects : list Effect) : string :=
  foldl (fun current e =>
           match e with
           | SetValidationError m => m
           | _ => current
           end) "" effects.

(** The context function as the service of [AuthService] backs it: one POST
    to /auth/register with the three fields. *)
Definition register_via_service (accepts : bool) (email username password : string)
  : list Request * bool :=
  ([PostRegister email username password], accepts).

(** [handleChange]: [setFormData(prev => ({ ...prev, [e.target.name]: e.target.value }))].
    Property by property, the new object holds [value] under [name] and what
    [prev] held elsewhere; the component reads these four properties. *)
Definition handleChange (name value : string) (prev : FormData) : FormData :=
  {| email := if str_eq name "email" then value else email prev;
     username := if str_eq name "username" then value else username prev;
     password := if str_eq name "password" then value else password prev;
     confirmPassword :=
       if str_eq name "confirmPassword" then value else confirmPassword prev |}.

(** The [validationError] cell after the effects ran, from whatever value
    an earlier submission left in it. *)
Definition validationErrorFrom (current : string) (effects : list Effect) : string :=
  foldl (fun current e =>
           match e with
           | SetValidationError m => m
           | _ => current
           end) current effects.

(** [a || b] on two such values. *)
Definition or_else (a b : option string) : option string :=
  if truthy a then a else b.

(** The error banner of the form:
    [(error || validationError) && <div>{validationError || error}</div>],
    with [error] the string-or-null of [useAuth()].  [None] is no banner. *)
Definition banner (error : option string) (validationError : string) : option string :=
  if truthy (or_else error (Some validationError))
  then or_else (Some validationError) error
  else None.

End Register.

(* ===================================================================== *)
(** * components/Chat/ChatWindow: scroll following *)
(* ===================================================================== *)

Module ChatWindow.

Local Open Scope Z_scope.

(** The layout of the scroll container, in pixels. *)
Record Element := {
  scrollHeight : Z;
  scrollTop : Z;
  clientHeight : Z
}.

(** [scrollContainerRef.current] is [None] while nothing is mounted. *)
Definition isNearBottom (current : option Element) : bool :=
  match current with
  | None => true
  | Some el => scrollHeight el - scrollTop el - clientHeight el <? 140
  end.

(** [el.scrollTo({ top: el.scrollHeight, behavior })]: the browser clamps the
    requested offset to the scrollable range. *)
Definition scrollToBottom (current : option Element) : option Element :=
  match current with
  | None => None
  | Some el =>
      Some {| scrollHeight := scrollHeight el;
              scrollTop := Z.max 0 (Z.min (scrollHeight el) (scrollHeight el - clientHeight el));
              clientHeight := clientHeight el |}
  end.

Inductive Behavior := smooth | auto.

(** The two values of [useChat()] the scroll effects depend on. *)
Record ChatProps := {
  messages_length : nat;
  streamingMessage : string
}.

(** The effects of one render, run by React after the render's DOM changes
    are committed: each effect whose dependency changed calls [isNearBottom]
    on the committed layout and, if it answers true, asks for an animation
    frame that scrolls.  The result lists the frames asked for, in order. *)
Definition scrollEffects (prev next : ChatProps) (committed : option Element)
  : list Behavior :=
  (if negb (Nat.eqb (messages_length prev) (messages_length next))
      && isNearBottom committed then [smooth] else [])
  ++
  (if negb (str_eq (streamingMessage prev) (streamingMessage next))
      && isNearBottom committed then [auto] else []).

(** One state change of the chat: [dom_update] is what committing the new
    render does to the container; the effects run on its result. *)
Definition rerender (prev next : ChatProps)
    (dom_update : option Element -> option Element) (before : option Element)
  : option Element * list Behavior :=
  let committed := dom_update before in
  (committed, scrollEffects prev next committed).


(** Whether the state change ended in an automatic scroll. *)
Definition autoScrolls (prev next : ChatProps)
    (dom_update : option Element -> option Element) (before : option Element) : bool :=
  match snd (rerender prev next dom_update before) with
  | [] => false
  | _ => true
  end.

(** A DOM update that changes the height of the content by [delta] pixels
    and leaves the scroll offset where it was. *)
Definition resizeContent (delta : Z) (current : option Element) : option Element :=
  match current with
  | None => None
  | Some el => Some {| scrollHeight := scrollHeight el + delta;
                       scrollTop := scrollTop el;
                       clientHeight := clientHeight el |}
  end.


(** ** The scroll effects in time

    A frame asked for with [requestAnimationFrame] runs later, and a
    ['smooth'] scroll takes time to arrive: renders can be committed in
    between, and their effects read the layout of that moment. *)

(** The scroll container, the callbacks handed to [requestAnimationFrame]
    and not run yet (oldest first), and the target of a smooth scroll that
    is under way. *)
Record Viewport := {
  container : option Element;
  requestedFrames : list Behavior;
  smoothTarget : option Z
}.

(** The offset [el.scrollTo({ top: el.scrollHeight })] asks for, clamped to
    the scrollable range as it is when the call is made. *)
Definition scrollTarget (el : Element) : Z :=
  Z.max 0 (Z.min (scrollHeight el) (scrollHeight el - clientHeight el)).

Definition setScrollTop (top : Z) (el : Element) : Element :=
  {| scrollHeight := scrollHeight el; scrollTop := top; clientHeight := clientHeight el |}.

(** What happens to the viewport, one thing at a time. *)
Inductive Moment :=
| RenderCommitted (prev next : ChatProps) (delta : Z)
| AnimationFrame
| SmoothScrollMoved (top : Z).

(** - A render is committed, adding [delta] pixels of content; its effects
      run on the committed layout and the frames they ask for join the
      queue.  A smooth scroll under way keeps its target.
    - The browser runs the oldest callback: [scrollToBottom('auto')] jumps
      and ends a smooth scroll under way; [scrollToBottom('smooth')] only
      starts a scroll towards the bottom as it is now (nothing happens when
      the container is not mounted).
    - A smooth scroll under way moves the offset to a position between the
      present one and its target, and is over when it arrives. *)
Definition moment (v : Viewport) (m : Moment) : Viewport :=
  match m with
  | RenderCommitted prev next delta =>
      let '(committed, frames) := rerender prev next (resizeContent delta) (container v) in
      {| container := committed;
         requestedFrames := requestedFrames v ++ frames;
         smoothTarget := smoothTarget v |}
  | AnimationFrame =>
      match requestedFrames v with
      | [] => v
      | auto :: rest =>
          {| container := scrollToBottom (container v);
             requestedFrames := rest;
             smoothTarget := None |}
      | smooth :: rest =>
          {| container := container v;
             requestedFrames := rest;
             smoothTarget := option_map scrollTarget (container v) |}
      end
  | SmoothScrollMoved top =>
      match container v, smoothTarget v with
      | Some el, Some target =>
          if (Z.min (scrollTop el) target <=? top) && (top <=? Z.max (scrollTop el) target)
          then {| container := Some (setScrollTop top el);
                  requestedFrames := requestedFrames v;
                  smoothTarget := if top =? target then None else Some target |}
          else v
      | _, _ => v
      end
  end.

Definition play (v : Viewport) (moments : list Moment) : Viewport :=
  foldl moment v moments.

(** The chat screen at rest, with the given layout of the container. *)
Definition atRest (el : Element) : Viewport :=
  {| container := Some el; requestedFrames := []; smoothTarget := None |}.

(** ** The sidebar *)

Definition DESKTOP_BREAKPOINT : Z := 1024.

(** The two sidebar cells of the component, and [window.innerWidth] as the
    handlers read it. *)
Record Layout := {
  innerWidth : Z;
  isSidebarOpen : bool;
  isSidebarCollapsed : bool
}.

Definition setIsSidebarOpen (f : bool -> bool) (l : Layout) : Layout :=
  {| innerWidth := innerWidth l;
     isSidebarOpen := f (isSidebarOpen l);
     isSidebarCollapsed := isSidebarCollapsed l |}.

Definition setIsSidebarCollapsed (f : bool -> bool) (l : Layout) : Layout :=
  {| innerWidth := innerWidth l;
     isSidebarOpen := isSidebarOpen l;
     isSidebarCollapsed := f (isSidebarCollapsed l) |}.

Definition handleResize (l : Layout) : Layout :=
  if DESKTOP_BREAKPOINT <=? innerWidth l
  then setIsSidebarOpen (fun _ => false) l
  else l.

Definition handleToggleSidebar (l : Layout) : Layout :=
  if DESKTOP_BREAKPOINT <=? innerWidth l
  then setIsSidebarCollapsed negb l
  else setIsSidebarOpen negb l.

(** [handleNewChat]: the lines after [await createConversation()] run only
    when the promise resolved ([created]), with the width of that moment. *)
Definition handleNewChat (created : bool) (l : Layout) : Layout :=
  if created then
    if innerWidth l <? DESKTOP_BREAKPOINT
    then setIsSidebarOpen (fun _ => false) l
    else l
  else l.

(** What can happen to the sidebar: the browser resizes the window and
    fires [resize]; the buttons of the header and of the sidebar. *)
Inductive SidebarEvent :=
| WindowResized (width : Z)
| ToggleSidebarClicked
| NewChatSettled (created : bool)
| ConversationSelected
| CloseMobileClicked
| OverlayClicked.

Definition sidebarStep (l : Layout) (ev : SidebarEvent) : Layout :=
  match ev with
  | WindowResized width =>
      handleResize {| innerWidth := width;
                      isSidebarOpen := isSidebarOpen l;
                      isSidebarCollapsed := isSidebarCollapsed l |}
  | ToggleSidebarClicked => handleToggleSidebar l
  | NewChatSettled created => handleNewChat created l
  | ConversationSelected => setIsSidebarOpen (fun _ => false) l
  | CloseMobileClicked => setIsSidebarOpen (fun _ => false) l
  | OverlayClicked => setIsSidebarOpen (fun _ => false) l
  end.

(** [useState(false)] for both cells, in a window of the given width. *)
Definition initialLayout (width : Z) : Layout :=
  {| innerWidth := width; isSidebarOpen := false; isSidebarCollapsed := false |}.

Definition sidebarRun (l : Layout) (events : list SidebarEvent) : Layout :=
  foldl sidebarStep l events.

End ChatWindow.

(* ===================================================================== *)
(** * The conversation and streaming-message state engine *)
(* ===================================================================== *)

(** The chat screen obtains the engine from [useChat()]; the hook and the
    context behind it are not among the source files at hand, so the engine
    is written down from sections 3, 4, 5 and 7 of the specification. *)

Module ChatEngine.

Inductive Role := user | assistant.

Record Conversation := {
  id : nat;
  title : string;
  turn_count : nat;
  updated_at : nat
}.

Record Message := {
  message_id : nat;
  conversation_id : nat;
  role : Role;
  content : string;
  turn_number : nat
}.

Inductive DraftStatus := active | completed | cancelled | failed.

Record StreamingDraft := {
  draft_conversation_id : nat;
  accumulated_text : string;
  status : DraftStatus
}.

Inductive Error :=
| ValidationError
| InvalidStateError
| ConcurrentStreamError
| OrderingError
| NotFoundError
| TransportError (cause : string).

Inductive Result := Ok | Err (e : Error).

(** The answer of the Transport Client to a request. *)
Inductive Reply (A : Type) :=
| Success (a : A)
| Failure (cause : string).
Arguments Success {A} a.
Arguments Failure {A} cause.

(** ** Message Timeline (section 4.2) *)

(** Modelled from the spec: the current maximum turn_number of a timeline
    (the Message Timeline is not in the source files).  Turns are counted
    from 1 ("previous max + 1"), so the maximum of an empty timeline is 0. *)
Definition max_turn (timeline : list Message) : nat :=
  foldr (fun m acc => Nat.max (turn_number m) acc) 0%nat timeline.

(** Modelled from the spec: [append(message)] of section 4.2, which is not
    in the source files: "inserts preserving turn_number order; rejects
    (fails with OrderingError) a message whose turn_number is not greater
    than the current maximum".  A message above the maximum goes last. *)
Definition append (timeline : list Message) (m : Message) : list Message * Result :=
  if (max_turn timeline <? turn_number m)%nat then (timeline ++ [m], Ok)
  else (timeline, Err OrderingError).

(** A sequence of [append] calls; a rejected call leaves what it found. *)
Definition appendAll (timeline : list Message) (calls : list Message) : list Message :=
  foldl (fun tl m => fst (append tl m)) timeline calls.

(** turn_number values strictly increasing in display order. *)
Definition increasing (timeline : list Message) : Prop :=
  StronglySorted lt (map turn_number timeline).

(** ** Input validation *)

Definition is_space (c : ascii) : bool :=
  match Ascii.nat_of_ascii c with
  | 9 | 10 | 11 | 12 | 13 | 32 => true
  | _ => false
  end%nat.

Fixpoint trim_start (s : string) : string :=
  match s with
  | EmptyString => EmptyString
  | String c rest => if is_space c then trim_start rest else s
  end.

Fixpoint trim_end (s : string) : string :=
  match s with
  | EmptyString => EmptyString
  | String c rest =>
      match trim_end rest with
      | EmptyString => if is_space c then EmptyString else String c EmptyString
      | kept => String c kept
      end
  end.

(** Modelled from the spec: "non-empty after trimming" (section 4.4); the
    validation code is not in the source files.  Trimming removes leading
    and trailing white space. *)
Definition trim (s : string) : string := trim_end (trim_start s).

(** ** The engine *)

(** A request issued to the Transport Client. *)
Inductive Request :=
| ListAll
| LoadHistory (conversation : nat)
| OpenStream (conversation : nat) (user_message : string)
| CloseStream (conversation : nat).

(** Modelled from the spec: the state the Chat Engine owns (sections 2 and
    3); its code is not in the source files.  The Conversation Store is
    [conversations] and [current_conversation]; there is one Message
    Timeline per conversation id, because section 4.1 lets a draft complete
    into the timeline of a conversation that is no longer displayed; the
    Streaming Session is [draft] (idle when absent).  [requests] and
    [open_channels] record what the engine asked of the Transport Client. *)
Record Engine := {
  conversations : list Conversation;
  current_conversation : option Conversation;
  timelines : gmap nat (list Message);
  draft : option StreamingDraft;
  is_busy : bool;
  last_error : option Error;
  requests : list Request;
  open_channels : nat
}.

Definition timeline_of (e : Engine) (conversation : nat) : list Message :=
  default [] (timelines e !! conversation).

(** The timeline on display: that of the current conversation. *)
Definition timeline (e : Engine) : list Message :=
  match current_conversation e with
  | Some c => timeline_of e (id c)
  | None => []
  end.

(** Modelled from the spec: EngineState of section 3, the aggregate the View
    Layer observes. *)
Record EngineState := {
  st_conversations : list Conversation;
  st_current_conversation : option Conversation;
  st_timeline : list Message;
  st_draft : option StreamingDraft;
  st_is_busy : bool;
  st_last_error : option Error
}.

Definition observe (e : Engine) : EngineState :=
  {| st_conversations := conversations e;
     st_current_conversation := current_conversation e;
     st_timeline := timeline e;
     st_draft := draft e;
     st_is_busy := is_busy e;
     st_last_error := last_error e |}.

Definition initial : Engine :=
  {| conversations := []; current_conversation := None; timelines := ∅;
     draft := None; is_busy := false; last_error := None;
     requests := []; open_channels := 0 |}.

(** Streaming Session states: terminal states return to idle at once, so a
    session is either idle (no draft) or active (a draft). *)
Definition session_active (e : Engine) : bool :=
  match draft e with
  | Some _ => true
  | None => false
  end.

Definition session_idle (e : Engine) : bool := negb (session_active e).

(** Modelled from the spec: section 7, "local/state errors are synchronous
    failures returned to the caller and never mutate EngineState beyond
    setting last_error". *)
Definition reject (e : Engine) (err : Error) : Engine * Result :=
  ({| conversations := conversations e;
      current_conversation := current_conversation e;
      timelines := timelines e;
      draft := draft e;
      is_busy := is_busy e;
      last_error := Some err;
      requests := requests e;
      open_channels := open_channels e |}, Err err).

Section Operations.
(** The specification does not say how a Message obtains its id; the
    allocation is a parameter, given the timeline the message joins. *)
Variable fresh_id : list Message -> nat.

(** Modelled from the spec: [begin(conversation_id, user_message)] of
    section 4.3 with its reentrancy rule; the Streaming Session is not in
    the source files.  "The engine first optimistically appends the user's
    message to the timeline (turn_number = previous max + 1), then opens a
    streaming channel." *)
Definition begin (conversation : nat) (user_message : string) (e : Engine)
  : Engine * Result :=
  if session_active e then reject e ConcurrentStreamError
  else
    let tl := timeline_of e conversation in
    let m := {| message_id := fresh_id tl;
                conversation_id := conversation;
                role := user;
                content := user_message;
                turn_number := max_turn tl + 1 |} in
    match append tl m with
    | (tl', Ok) =>
        ({| conversations := conversations e;
            current_conversation := current_conversation e;
            timelines := <[conversation := tl']> (timelines e);
            draft := Some {| draft_conversation_id := conversation;
                             accumulated_text := "";
                             status := active |};
            is_busy := is_busy e;
            last_error := last_error e;
            requests := requests e ++ [OpenStream conversation user_message];
            open_channels := open_channels e + 1 |}, Ok)
    | (_, Err err) => reject e err
    end.

(** Modelled from the spec: [sendMessage(content)] of section 4.4, which is
    not in the source files: "requires current_conversation present and
    Streaming Session idle; otherwise fails with InvalidStateError.
    Validates content is non-empty after trimming; empty input fails with
    ValidationError without contacting the transport.  On success, begins a
    Streaming Session." *)
Definition sendMessage (content : string) (e : Engine) : Engine * Result :=
  match current_conversation e with
  | None => reject e InvalidStateError
  | Some c =>
      if negb (session_idle e) then reject e InvalidStateError
      else if str_eq (trim content) "" then reject e ValidationError
      else begin (id c) content e
  end.

(** Modelled from the spec: section 4.3, active: "Each inbound chunk
    appends to accumulated_text".  A chunk with no session is dropped. *)
Definition receiveChunk (chunk : string) (e : Engine) : Engine :=
  match draft e with
  | None => e
  | Some d =>
      {| conversations := conversations e;
         current_conversation := current_conversation e;
         timelines := timelines e;
         draft := Some {| draft_conversation_id := draft_conversation_id d;
                          accumulated_text := (accumulated_text d ++ chunk)%string;
                          status := status d |};
         is_busy := is_busy e;
         last_error := last_error e;
         requests := requests e;
         open_channels := open_channels e |}
  end.

(** Modelled from the spec: section 4.3, completed: "the channel signals
    end-of-stream.  The accumulated text is promoted to a persisted Message
    with turn_number = previous max + 1 and appended via 4.2; draft is
    cleared; state returns to idle."  The channel is released (section 5). *)
Definition endOfStream (e : Engine) : Engine :=
  match draft e with
  | None => e
  | Some d =>
      let conversation := draft_conversation_id d in
      let tl := timeline_of e conversation in
      let m := {| message_id := fresh_id tl;
                  conversation_id := conversation;
                  role := assistant;
                  content := accumulated_text d;
                  turn_number := max_turn tl + 1 |} in
      {| conversations := conversations e;
         current_conversation := current_conversation e;
         timelines := <[conversation := fst (append tl m)]> (timelines e);
         draft := None;
         is_busy := is_busy e;
         last_error := last_error e;
         requests := requests e;
         open_channels := open_channels e - 1 |}
  end.

(** Modelled from the spec: section 4.3, cancelled: "The channel is closed,
    accumulated text is discarded, no Message is created, state returns to
    idle"; cancelling with no session is a no-op (section 5). *)
Definition cancel (e : Engine) : Engine :=
  match draft e with
  | None => e
  | Some d =>
      {| conversations := conversations e;
         current_conversation := current_conversation e;
         timelines := timelines e;
         draft := None;
         is_busy := is_busy e;
         last_error := last_error e;
         requests := requests e ++ [CloseStream (draft_conversation_id d)];
         open_channels := open_channels e - 1 |}
  end.

(** Modelled from the spec: section 4.3, failed: "The partial
    accumulated_text is discarded.  last_error is set; state returns to
    idle"; the channel is released (section 5). *)
Definition streamFailed (cause : string) (e : Engine) : Engine :=
  match draft e with
  | None => e
  | Some d =>
      {| conversations := conversations e;
         current_conversation := current_conversation e;
         timelines := timelines e;
         draft := None;
         is_busy := is_busy e;
         last_error := Some (TransportError cause);
         requests := requests e;
         open_channels := open_channels e - 1 |}
  end.
End Operations.

(** ** Reads (sections 4.1, 4.2, 4.4, 7) *)

(** Modelled from the spec: [loadConversations()] of section 4.4, which is
    not in the source files: "delegates to 4.1.listAll; sets is_busy during
    the call".  This is the engine up to the suspension point. *)
Definition loadConversations_start (e : Engine) : Engine :=
  {| conversations := conversations e;
     current_conversation := current_conversation e;
     timelines := timelines e;
     draft := draft e;
     is_busy := true;
     last_error := last_error e;
     requests := requests e ++ [ListAll];
     open_channels := open_channels e |}.

(** Modelled from the spec: the resumption of [loadConversations()]:
    [listAll] "fetches and replaces the known set"; "on failure sets
    last_error and leaves prior state intact". *)
Definition loadConversations_finish (reply : Reply (list Conversation)) (e : Engine)
  : Engine * Result :=
  match reply with
  | Success fetched =>
      ({| conversations := fetched;
          current_conversation := current_conversation e;
          timelines := timelines e;
          draft := draft e;
          is_busy := false;
          last_error := last_error e;
          requests := requests e;
          open_channels := open_channels e |}, Ok)
  | Failure cause =>
      ({| conversations := conversations e;
          current_conversation := current_conversation e;
          timelines := timelines e;
          draft := draft e;
          is_busy := false;
          last_error := Some (TransportError cause);
          requests := requests e;
          open_channels := open_channels e |}, Err (TransportError cause))
  end.

Definition loadConversations (reply : Reply (list Conversation)) (e : Engine)
  : Engine * Result :=
  loadConversations_finish reply (loadConversations_start e).

(** Modelled from the spec: [selectConversation(conversation)] of section
    4.4 ("delegates to 4.1.select + 4.2.load"), which is not in the source
    files.  [load] "fetches persisted history, replacing the timeline; fails
    with TransportError"; by section 7 a failed read leaves prior state
    untouched, and by section 4.1 a draft in flight is not cancelled. *)
Definition selectConversation (conversation : Conversation)
    (reply : Reply (list Message)) (e : Engine) : Engine * Result :=
  let asked := requests e ++ [LoadHistory (id conversation)] in
  match reply with
  | Success history =>
      ({| conversations := conversations e;
          current_conversation := Some conversation;
          timelines := <[id conversation := history]> (timelines e);
          draft := draft e;
          is_busy := is_busy e;
          last_error := last_error e;
          requests := asked;
          open_channels := open_channels e |}, Ok)
  | Failure cause =>
      ({| conversations := conversations e;
          current_conversation := current_conversation e;
          timelines := timelines e;
          draft := draft e;
          is_busy := is_busy e;
          last_error := Some (TransportError cause);
          requests := asked;
          open_channels := open_channels e |}, Err (TransportError cause))
  end.

(** ** Runs of the engine *)

(** What can happen to the engine: calls of the View Layer together with
    the transport's reply, and signals of the streaming channel. *)
Inductive Event :=
| SendMessage (content : string)
| Chunk (text : string)
| EndOfStream
| Cancel
| StreamError (cause : string)
| LoadConversations (reply : Reply (list Conversation))
| SelectConversation (conversation : Conversation) (reply : Reply (list Message)).

Section Runs.
Variable fresh_id : list Message -> nat.

Definition step (e : Engine) (ev : Event) : Engine :=
  match ev with
  | SendMessage content => fst (sendMessage fresh_id content e)
  | Chunk text => receiveChunk text e
  | EndOfStream => endOfStream fresh_id e
  | Cancel => cancel e
  | StreamError cause => streamFailed cause e
  | LoadConversations reply => fst (loadConversations reply e)
  | SelectConversation c reply => fst (selectConversation c reply e)
  end.

Definition run (e : Engine) (events : list Event) : Engine := foldl step e events.
End Runs.

(** The number of [OpenStream] requests in a log. *)
Definition is_open_stream (r : Request) : bool :=
  match r with
  | OpenStream _ _ => true
  | _ => false
  end.

Definition streams_opened (log : list Request) : nat :=
  length (List.filter is_open_stream log).

(** The part of EngineState a failed read must not touch. *)
Definition same_content (a b : EngineState) : Prop :=
  st_conversations a = st_conversations b /\
  st_current_conversation a = st_current_conversation b /\
  st_timeline a = st_timeline b /\
  st_draft a = st_draft b.

End ChatEngine.

(* ===================================================================== *)
(** * components/Chat/MessageList *)
(* ===================================================================== *)

Module MessageList.

(** A message as the list reads it; [id] is absent on a message that was
    not stored yet. *)
Record ListedMessage := {
  id : option string;
  role : string;
  content : string;
  turn_number : Z
}.

(** [message.id || index] *)
Inductive Key := KeyId (id : string) | KeyIndex (index : nat).

(** The children of the scroll container, in document order. *)
Inductive Block :=
| EmptyState
| Article (key : Key) (className label : string) (turn_number : Z) (content : string)
| StreamingArticle (text : string)
| Spinner.

Definition article (index : nat) (message : ListedMessage) : Block :=
  Article
    (match id message with
     | Some i => if str_eq i "" then KeyIndex index else KeyId i
     | None => KeyIndex index
     end)
    (if str_eq (role message) "user" then "message-user" else "message-assistant")
    (if str_eq (role message) "user" then "You" else "Assistant")
    (turn_number message)
    (content message).

Definition render (messages : list ListedMessage) (streamingMessage : option string)
    (isLoading : bool) : list Block :=
  (if (length messages =? 0)%nat && negb (truthy streamingMessage)
   then [EmptyState] else [])
  ++ imap article messages
  ++ (if truthy streamingMessage
      then [StreamingArticle (default "" streamingMessage)] else [])
  ++ (if isLoading && negb (truthy streamingMessage) then [Spinner] else []).

(** The articles of the stored messages among the blocks. *)
Definition articles (blocks : list Block) : list (string * string) :=
  omap (fun b => match b with
                 | Article _ _ label _ content => Some (label, content)
                 | _ => None
                 end) blocks.

End MessageList.

(* ===================================================================== *)
(** * App: routes and the private route *)
(* ===================================================================== *)

Module App.

(** The four routes of [AppContent], named by their paths. *)
Inductive Route := login_path | register_path | chat_path | root_path.

Inductive Screen := LoginScreen | RegisterScreen | ChatScreen | LoadingSpinner.

(** What a route renders: a screen, or [<Navigate to=... />]. *)
Inductive RouteElement := Show (screen : Screen) | Navigate (to : Route).

Section Routes.
Context {User : Type}.

(** [useAuth()] as the private route reads it. *)
Record Auth := { user : option User; loading : bool }.

Definition PrivateRoute (auth : Auth) (children : RouteElement) : RouteElement :=
  if loading auth then Show LoadingSpinner
  else match user auth with
       | Some _ => children
       | None => Navigate login_path
       end.

Definition element (auth : Auth) (route : Route) : RouteElement :=
  match route with
  | login_path => Show LoginScreen
  | register_path => Show RegisterScreen
  | chat_path => PrivateRoute auth (Show ChatScreen)
  | root_path => Navigate chat_path
  end.

(** Rendering a [Navigate] changes the location and the routes are matched
    again; [fuel] bounds the number of renders. *)
Fixpoint settle (fuel : nat) (auth : Auth) (route : Route) : option Screen :=
  match fuel with
  | O => None
  | S fuel =>
      match element auth route with
      | Show screen => Some screen
      | Navigate to => settle fuel auth to
      end
  end.
End Routes.
Arguments Auth User : clear implicits.

End App.

(* ===================================================================== *)
(** * Properties *)
(* ===================================================================== *)

Lemma str_eq_true a b : str_eq a b = true <-> a = b.
Proof. apply String.eqb_eq. Qed.

Lemma str_eq_false a b : str_eq a b = false <-> a <> b.
Proof. apply String.eqb_neq. Qed.

Lemma str_eq_refl a : str_eq a a = true.
Proof. apply String.eqb_refl. Qed.

(** ** Theme *)

Section ThemeFacts.
Import ThemeContext.

Lemma themeEffect_persisted p : persisted (themeEffect p).
Proof. unfold persisted, themeEffect; simpl. apply lookup_insert_eq. Qed.

Lemma themeEffect_theme p : theme (themeEffect p) = theme p.
Proof. reflexivity. Qed.

Lemma mount_theme storage window :
  theme (mount storage window) = getInitialTheme storage window.
Proof. reflexivity. Qed.

Lemma setTheme_theme f p : theme (setTheme f p) = f (theme p).
Proof.
  unfold setTheme. destruct (str_eq (f (theme p)) (theme p)) eqn:E.
  - apply str_eq_true in E. congruence.
  - reflexivity.
Qed.

Lemma setTheme_persisted f p : persisted p -> persisted (setTheme f p).
Proof.
  intros Hp. unfold setTheme.
  destruct (str_eq (f (theme p)) (theme p)); [assumption | apply themeEffect_persisted].
Qed.

Lemma setTheme_changed_persisted f p :
  theme (setTheme f p) <> theme p -> persisted (setTheme f p).
Proof.
  unfold setTheme. destruct (str_eq (f (theme p)) (theme p)).
  - intros H. now contradiction H.
  - intros _. apply themeEffect_persisted.
Qed.

Lemma act_persisted a p : persisted p -> persisted (act p a).
Proof. destruct a; simpl; apply setTheme_persisted. Qed.

Lemma act_changed_persisted a p :
  theme (act p a) <> theme p -> persisted (act p a).
Proof. destruct a; simpl; apply setTheme_changed_persisted. Qed.

Lemma run_persisted actions : forall p, persisted p -> persisted (run p actions).
Proof.
  induction actions as [|a actions IH]; intros p Hp; simpl.
  - assumption.
  - apply IH, act_persisted, Hp.
Qed.

Lemma toggle_dark : toggle "dark" = "light".
Proof. reflexivity. Qed.

Lemma toggle_other s : s <> "dark" -> toggle s = "dark".
Proof. intros H. unfold toggle. apply str_eq_false in H. now rewrite H. Qed.

Lemma toggleTheme_theme p : theme (toggleTheme p) = toggle (theme p).
Proof. apply setTheme_theme. Qed.
Lemma getInitialTheme_system (storage : gmap string string) window :
  (forall s, storage !! THEME_STORAGE_KEY = Some s -> s <> "light" /\ s <> "dark") ->
  getInitialTheme storage window
  = match matchMedia window with
    | Some matchMedia =>
        if matches (matchMedia "(prefers-color-scheme: dark)") then "dark" else "light"
    | None => "light"
    end.
Proof.
  intros Hno. unfold getInitialTheme, prefersDark.
  destruct (storage !! THEME_STORAGE_KEY) as [s|] eqn:Hs.
  - destruct (Hno s eq_refl) as [Hl Hd].
    apply str_eq_false in Hl, Hd. rewrite Hl, Hd. simpl.
    destruct (matchMedia window); reflexivity.
  - destruct (matchMedia window); reflexivity.
Qed.

End ThemeFacts.

(** C7. At start-up the theme is the value stored under the one key
    ['memory-ai-theme'] whenever that value is ['light'] or ['dark'];
    otherwise it is the system colour-scheme preference: ['dark'] when
    [window.matchMedia('(prefers-color-scheme: dark)').matches] is true,
    ['light'] when it is false and when [window.matchMedia] is missing.
    After mounting and after any sequence of theme actions the value under
    that key is the current theme, and every action that changes the theme
    writes the new value there. *)
Theorem theme_startup_and_persistence
    (storage : gmap string string) (window : ThemeContext.Window) :
  (forall s, storage !! ThemeContext.THEME_STORAGE_KEY = Some s ->
             s = "light" \/ s = "dark" ->
             ThemeContext.theme (ThemeContext.mount storage window) = s) /\
  ((forall s, storage !! ThemeContext.THEME_STORAGE_KEY = Some s ->
              s <> "light" /\ s <> "dark") ->
   match ThemeContext.matchMedia window with
   | Some matchMedia =>
       (ThemeContext.matches (matchMedia "(prefers-color-scheme: dark)") = true ->
        ThemeContext.theme (ThemeContext.mount storage window) = "dark") /\
       (ThemeContext.matches (matchMedia "(prefers-color-scheme: dark)") = false ->
        ThemeContext.theme (ThemeContext.mount storage window) = "light")
   | None => ThemeContext.theme (ThemeContext.mount storage window) = "light"
   end) /\
  (forall actions,
     let p := ThemeContext.run (ThemeContext.mount storage window) actions in
     ThemeContext.localStorage p !! ThemeContext.THEME_STORAGE_KEY
     = Some (ThemeContext.theme p)) /\
  (forall p a,
     ThemeContext.theme (ThemeContext.act p a) <> ThemeContext.theme p ->
     ThemeContext.localStorage (ThemeContext.act p a) !! ThemeContext.THEME_STORAGE_KEY
     = Some (ThemeContext.theme (ThemeContext.act p a))).
Proof.
  repeat apply conj.
  - intros s Hs Hv. rewrite mount_theme. unfold ThemeContext.getInitialTheme.
    rewrite Hs. destruct Hv as [-> | ->]; reflexivity.
  - intros Hno. rewrite mount_theme, (getInitialTheme_system _ _ Hno).
    destruct (ThemeContext.matchMedia window) as [matchMedia|]; [| reflexivity].
    split; intros ->; reflexivity.
  - intros actions. apply run_persisted, themeEffect_persisted.
  - intros p a. apply act_changed_persisted.
Qed.

(** The stored value wins over a system that prefers dark.  A stored value
    that is no theme leaves the choice to the system: dark where the dark
    query matches, light where it does not, light where there is no
    [matchMedia].  Toggling writes the new theme. *)
Lemma theme_startup_and_persistence_witness :
  let dark_system :=
    {| ThemeContext.matchMedia :=
         Some (fun query =>
                 {| ThemeContext.matches := str_eq query "(prefers-color-scheme: dark)" |}) |} in
  let light_system :=
    {| ThemeContext.matchMedia := Some (fun _ => {| ThemeContext.matches := false |}) |} in
  let old_browser := {| ThemeContext.matchMedia := None |} in
  ThemeContext.theme
    (ThemeContext.mount {[ ThemeContext.THEME_STORAGE_KEY := "light" ]} dark_system)
  = "light" /\
  ThemeContext.theme
    (ThemeContext.mount {[ ThemeContext.THEME_STORAGE_KEY := "blue" ]} dark_system)
  = "dark" /\
  ThemeContext.theme
    (ThemeContext.mount {[ ThemeContext.THEME_STORAGE_KEY := "blue" ]} light_system)
  = "light" /\
  ThemeContext.theme (ThemeContext.mount ∅ old_browser) = "light" /\
  (let p := ThemeContext.act (ThemeContext.mount ∅ dark_system) ThemeContext.ToggleTheme in
   ThemeContext.localStorage p !! ThemeContext.THEME_STORAGE_KEY = Some "light").
Proof.
  intros dark_system light_system old_browser.
  assert (Hblue : forall s : string,
             ({[ ThemeContext.THEME_STORAGE_KEY := "blue" ]} : gmap string string)
               !! ThemeContext.THEME_STORAGE_KEY = Some s ->
             s <> "light" /\ s <> "dark").
  { intros s Hs. rewrite lookup_singleton_eq in Hs. injection Hs as <-.
    split; discriminate. }
  assert (Hempty : forall s : string,
             (∅ : gmap string string) !! ThemeContext.THEME_STORAGE_KEY = Some s ->
             s <> "light" /\ s <> "dark").
  { intros s Hs. rewrite lookup_empty in Hs. discriminate Hs. }
  split; [| split; [| split; [| split]]].
  - apply (proj1 (theme_startup_and_persistence
                    {[ ThemeContext.THEME_STORAGE_KEY := "light" ]} dark_system) "light").
    + apply lookup_singleton_eq.
    + left; reflexivity.
  - apply (proj1 (proj1 (proj2 (theme_startup_and_persistence
                    {[ ThemeContext.THEME_STORAGE_KEY := "blue" ]} dark_system)) Hblue)).
    reflexivity.
  - apply (proj2 (proj1 (proj2 (theme_startup_and_persistence
                    {[ ThemeContext.THEME_STORAGE_KEY := "blue" ]} light_system)) Hblue)).
    reflexivity.
  - exact (proj1 (proj2 (theme_startup_and_persistence ∅ old_browser)) Hempty).
  - refine (eq_trans
              (proj2 (proj2 (proj2 (theme_startup_and_persistence ∅ dark_system)))
                 (ThemeContext.mount ∅ dark_system) ThemeContext.ToggleTheme _) _).
    + vm_compute. discriminate.
    + reflexivity.
Defined.

(** C10. [toggleTheme] turns ['dark'] into ['light'] and every other theme
    into ['dark']; hence on ['light'] and ['dark'] toggling twice gives the
    theme back. *)
Theorem toggleTheme_flip_and_involution (p : ThemeContext.Provider) :
  (ThemeContext.theme p = "dark" ->
   ThemeContext.theme (ThemeContext.toggleTheme p) = "light") /\
  (ThemeContext.theme p <> "dark" ->
   ThemeContext.theme (ThemeContext.toggleTheme p) = "dark") /\
  (ThemeContext.theme p = "light" \/ ThemeContext.theme p = "dark" ->
   ThemeContext.theme (ThemeContext.toggleTheme (ThemeContext.toggleTheme p))
   = ThemeContext.theme p).
Proof.
  repeat split.
  - intros H. rewrite toggleTheme_theme, H. reflexivity.
  - intros H. rewrite toggleTheme_theme. now apply toggle_other.
  - intros H. rewrite !toggleTheme_theme. destruct H as [-> | ->]; reflexivity.
Qed.

Lemma toggleTheme_flip_and_involution_witness :
  let p := {| ThemeContext.theme := "light";
              ThemeContext.data_theme := Some "light";
              ThemeContext.localStorage := {[ ThemeContext.THEME_STORAGE_KEY := "light" ]} |} in
  ThemeContext.theme (ThemeContext.toggleTheme p) = "dark" /\
  ThemeContext.theme (ThemeContext.toggleTheme (ThemeContext.toggleTheme p)) = "light" /\
  ThemeContext.theme
    (ThemeContext.toggleTheme
       {| ThemeContext.theme := "dark";
          ThemeContext.data_theme := None;
          ThemeContext.localStorage := ∅ |}) = "light".
Proof.
  intros p. split; [|split].
  - apply (proj1 (proj2 (toggleTheme_flip_and_involution p))). discriminate.
  - apply (proj2 (proj2 (toggleTheme_flip_and_involution p))). left; reflexivity.
  - apply (proj1 (toggleTheme_flip_and_involution _)). reflexivity.
Defined.

(** ** Authentication service *)

Section AuthFacts.
Import AuthService.

Ltac split_branches e :=
  unfold branch_of, first_handled, handled, List.find, kind_of;
  destruct (status_is e 400), (status_is e 401), (status_is e 404),
           (status_is e 409), (code_is e "NETWORK_ERROR").

Lemma call_never_raw {Data : Type} (op : Operation) (e : TransportFailure) :
  exists m, call (Data := Data) op (inr e) = Rejected (NewError m).
Proof.
  destruct op; simpl;
    unfold login, register, loginWithGoogle, getMe, refreshToken, deleteAccount;
    destruct (status_is e 400), (status_is e 401), (status_is e 404),
             (status_is e 409), (code_is e "NETWORK_ERROR"); eexists; reflexivity.
Qed.

Lemma call_by_branch {Data : Type} (op : Operation) (e e' : TransportFailure) :
  branch_of op e = branch_of op e' <->
  call (Data := Data) op (inr e) = call op (inr e').
Proof.
  destruct op; simpl;
    unfold login, register, loginWithGoogle, getMe, refreshToken, deleteAccount;
    split_branches e; split_branches e';
    split; intros H; first [reflexivity | discriminate H].
Qed.

Lemma call_network {Data : Type} (op : Operation) (e : TransportFailure) :
  branch_of op e = ByNetwork ->
  call (Data := Data) op (inr e) = Rejected (NewError NETWORK_MESSAGE).
Proof.
  destruct op; simpl;
    unfold login, register, loginWithGoogle, getMe, refreshToken, deleteAccount;
    split_branches e; intros H; first [reflexivity | discriminate H].
Qed.

Lemma login_distinguishes_kinds : distinguishes_kinds Login.
Proof.
  intros e1 e2. simpl. unfold login.
  split_branches e1; split_branches e2; intros H;
    first [now contradiction H | discriminate].
Qed.

Lemma deleteAccount_distinguishes_kinds : distinguishes_kinds DeleteAccount.
Proof.
  intros e1 e2. simpl. unfold deleteAccount.
  split_branches e1; split_branches e2; intros H;
    first [now contradiction H | discriminate].
Qed.
End AuthFacts.

(** C6, as stated, fails: [getMe] has no branch for 404, so a user-not-found
    rejection and an unclassified one (500) end in the same fallback
    message; the four kinds are not told apart by every operation. *)
Lemma getMe_does_not_distinguish_user_not_found :
  AuthService.kind_of (AuthService.http_failure 404 "Not Found")
    = AuthService.UserNotFound /\
  AuthService.kind_of (AuthService.http_failure 500 "Internal Server Error")
    = AuthService.GenericFallback /\
  AuthService.getMe (Data := unit) (inr (AuthService.http_failure 404 "Not Found"))
    = AuthService.getMe (inr (AuthService.http_failure 500 "Internal Server Error")) /\
  ~ AuthService.distinguishes_kinds AuthService.GetMe.
Proof.
  repeat split.
  intros H.
  apply (H (AuthService.http_failure 404 "Not Found")
           (AuthService.http_failure 500 "Internal Server Error")).
  - discriminate.
  - reflexivity.
Qed.

(** C6, amended.  Every failure of an authentication operation is turned at
    the service boundary into an error built by the service, never the raw
    rejection; the message depends on the rejection only through the branch
    of the operation's own handler it falls into, and different branches
    give different messages; a network failure that no status branch takes
    gives the shared network message.  The four kinds (invalid credentials,
    user not found, network failure, fallback) are all told apart by login
    and by account deletion. *)
Theorem auth_failures_mapped_by_branch
    (Data : Type) (op : AuthService.Operation) (e : AuthService.TransportFailure) :
  (exists m, AuthService.call (Data := Data) op (inr e)
             = AuthService.Rejected (AuthService.NewError m)) /\
  (forall e', AuthService.branch_of op e = AuthService.branch_of op e' <->
              AuthService.call (Data := Data) op (inr e) = AuthService.call op (inr e')) /\
  (AuthService.branch_of op e = AuthService.ByNetwork ->
   AuthService.call (Data := Data) op (inr e)
   = AuthService.Rejected (AuthService.NewError AuthService.NETWORK_MESSAGE)) /\
  AuthService.distinguishes_kinds AuthService.Login /\
  AuthService.distinguishes_kinds AuthService.DeleteAccount.
Proof.
  split; [apply call_never_raw |].
  split; [intros e'; apply call_by_branch |].
  split; [apply call_network |].
  split; [apply login_distinguishes_kinds | apply deleteAccount_distinguishes_kinds].
Qed.

(** A refresh that fails on the network: the caller sees the network
    message of the service, not the transport's text. *)
Lemma auth_failures_mapped_by_branch_witness :
  AuthService.refreshToken (Data := unit)
    (inr (AuthService.network_failure "socket hang up"))
  = AuthService.Rejected (AuthService.NewError AuthService.NETWORK_MESSAGE).
Proof.
  apply (proj1 (proj2 (proj2
           (auth_failures_mapped_by_branch unit AuthService.RefreshToken
              (AuthService.network_failure "socket hang up"))))).
  reflexivity.
Defined.

(** ** Theme: what the provider keeps over a session *)

Section ThemeSessionFacts.
Import ThemeContext.

Lemma act_attribute a p :
  data_theme p = Some (theme p) -> data_theme (act p a) = Some (theme (act p a)).
Proof.
  intros Hp. destruct a; simpl; unfold toggleTheme, setTheme;
    match goal with |- context [str_eq ?x ?y] => destruct (str_eq x y) end;
    first [assumption | reflexivity].
Qed.

Lemma act_other_keys a p k :
  k <> THEME_STORAGE_KEY -> localStorage (act p a) !! k = localStorage p !! k.
Proof.
  intros Hk. destruct a; simpl; unfold toggleTheme, setTheme;
    match goal with |- context [str_eq ?x ?y] => destruct (str_eq x y) end;
    first [reflexivity | simpl; apply lookup_insert_ne; congruence].
Qed.

Lemma getInitialTheme_light_or_dark storage window :
  getInitialTheme storage window = "light" \/ getInitialTheme storage window = "dark".
Proof.
  unfold getInitialTheme.
  destruct (storage !! THEME_STORAGE_KEY) as [s|].
  - destruct (str_eq s "light") eqn:El; simpl.
    + apply str_eq_true in El. now left.
    + destruct (str_eq s "dark") eqn:Ed.
      * apply str_eq_true in Ed. now right.
      * destruct (prefersDark window); [now right | now left].
  - destruct (prefersDark window); [now right | now left].
Qed.

Lemma stored_theme_read_back (storage : gmap string string) window s :
  storage !! THEME_STORAGE_KEY = Some s ->
  getInitialTheme storage window
  = if str_eq s "light" || str_eq s "dark" then s
    else if prefersDark window then "dark" else "light".
Proof. intros H. unfold getInitialTheme. now rewrite H. Qed.
End ThemeSessionFacts.

(** X1. After mounting and after any sequence of theme actions the
    [data-theme] attribute of the document element is the current theme. *)
Theorem theme_attribute_follows_state
    (storage : gmap string string) (window : ThemeContext.Window)
    (actions : list ThemeContext.Action) :
  let p := ThemeContext.run (ThemeContext.mount storage window) actions in
  ThemeContext.data_theme p = Some (ThemeContext.theme p).
Proof.
  simpl. unfold ThemeContext.run.
  assert (H : ThemeContext.data_theme (ThemeContext.mount storage window)
              = Some (ThemeContext.theme (ThemeContext.mount storage window)))
    by reflexivity.
  revert H. generalize (ThemeContext.mount storage window).
  induction actions as [|a actions IH]; intros p Hp; simpl.
  - assumption.
  - apply IH, act_attribute, Hp.
Qed.

(** X2. The provider writes localStorage under its own key only: every
    other key holds after any session what it held before the mount. *)
Theorem theme_writes_only_its_key
    (storage : gmap string string) (window : ThemeContext.Window)
    (actions : list ThemeContext.Action) (k : string) :
  k <> ThemeContext.THEME_STORAGE_KEY ->
  ThemeContext.localStorage (ThemeContext.run (ThemeContext.mount storage window) actions) !! k
  = storage !! k.
Proof.
  intros Hk. unfold ThemeContext.run.
  assert (H : ThemeContext.localStorage (ThemeContext.mount storage window) !! k = storage !! k).
  { unfold ThemeContext.mount, ThemeContext.themeEffect; simpl.
    apply lookup_insert_ne. congruence. }
  revert H. generalize (ThemeContext.mount storage window).
  induction actions as [|a actions IH]; intros p Hp; simpl.
  - assumption.
  - apply IH. rewrite act_other_keys; assumption.
Qed.

(** An access token stored beside the theme survives a toggle. *)
Lemma theme_writes_only_its_key_witness :
  ThemeContext.localStorage
    (ThemeContext.run
       (ThemeContext.mount {[ "token" := "abc" ]} {| ThemeContext.matchMedia := None |})
       [ThemeContext.ToggleTheme]) !! "token"
  = Some "abc".
Proof.
  refine (eq_trans
            (theme_writes_only_its_key {[ "token" := "abc" ]}
               {| ThemeContext.matchMedia := None |} [ThemeContext.ToggleTheme] "token" _) _).
  - discriminate.
  - apply lookup_singleton_eq.
Defined.

(** X3. Reload round trip: a provider mounted on the storage a session left
    behind starts with that session's last theme when it was ['light'] or
    ['dark'], whatever the system preference is by then; any other last
    theme is not read back and the system decides: ['dark'] when
    [window.matchMedia('(prefers-color-scheme: dark)').matches] is true,
    ['light'] when it is false and when [window.matchMedia] is missing. *)
Theorem theme_reload_round_trip
    (storage : gmap string string) (window window' : ThemeContext.Window)
    (actions : list ThemeContext.Action) :
  let p := ThemeContext.run (ThemeContext.mount storage window) actions in
  (ThemeContext.theme p = "light" \/ ThemeContext.theme p = "dark" ->
   ThemeContext.theme (ThemeContext.mount (ThemeContext.localStorage p) window')
   = ThemeContext.theme p) /\
  (ThemeContext.theme p <> "light" -> ThemeContext.theme p <> "dark" ->
   match ThemeContext.matchMedia window' with
   | Some matchMedia =>
       (ThemeContext.matches (matchMedia "(prefers-color-scheme: dark)") = true ->
        ThemeContext.theme (ThemeContext.mount (ThemeContext.localStorage p) window')
        = "dark") /\
       (ThemeContext.matches (matchMedia "(prefers-color-scheme: dark)") = false ->
        ThemeContext.theme (ThemeContext.mount (ThemeContext.localStorage p) window')
        = "light")
   | None =>
       ThemeContext.theme (ThemeContext.mount (ThemeContext.localStorage p) window')
       = "light"
   end).
Proof.
  intros p.
  assert (Hp : ThemeContext.persisted p)
    by (apply run_persisted, themeEffect_persisted).
  split.
  - intros Hv. rewrite mount_theme, (stored_theme_read_back _ _ _ Hp).
    destruct Hv as [-> | ->]; reflexivity.
  - intros Hl Hd. rewrite mount_theme.
    rewrite (getInitialTheme_system (ThemeContext.localStorage p) window').
    + destruct (ThemeContext.matchMedia window') as [matchMedia|]; [| reflexivity].
      split; intros ->; reflexivity.
    + intros s Hs. unfold ThemeContext.persisted in Hp. rewrite Hp in Hs.
      injection Hs as <-. now split.
Qed.

(** A session that ended on a theme set to ['sepia'] is not read back: a
    system whose dark query does not match starts light, one where it
    matches starts dark, a browser without [matchMedia] starts light. *)
Lemma theme_reload_round_trip_witness :
  let sepia :=
    ThemeContext.localStorage
      (ThemeContext.run (ThemeContext.mount ∅ {| ThemeContext.matchMedia := None |})
         [ThemeContext.SetTheme "sepia"]) in
  ThemeContext.theme
    (ThemeContext.mount sepia
       {| ThemeContext.matchMedia :=
            Some (fun _ => {| ThemeContext.matches := false |}) |}) = "light" /\
  ThemeContext.theme
    (ThemeContext.mount sepia
       {| ThemeContext.matchMedia :=
            Some (fun query =>
                    {| ThemeContext.matches :=
                         str_eq query "(prefers-color-scheme: dark)" |}) |}) = "dark" /\
  ThemeContext.theme
    (ThemeContext.mount sepia {| ThemeContext.matchMedia := None |}) = "light".
Proof.
  intros sepia.
  assert (Hl : ThemeContext.theme
                 (ThemeContext.run
                    (ThemeContext.mount ∅ {| ThemeContext.matchMedia := None |})
                    [ThemeContext.SetTheme "sepia"]) <> "light")
    by (vm_compute; discriminate).
  assert (Hd : ThemeContext.theme
                 (ThemeContext.run
                    (ThemeContext.mount ∅ {| ThemeContext.matchMedia := None |})
                    [ThemeContext.SetTheme "sepia"]) <> "dark")
    by (vm_compute; discriminate).
  split; [| split].
  - apply (proj2 (proj2 (theme_reload_round_trip ∅ {| ThemeContext.matchMedia := None |}
                           {| ThemeContext.matchMedia :=
                                Some (fun _ => {| ThemeContext.matches := false |}) |}
                           [ThemeContext.SetTheme "sepia"]) Hl Hd)).
    reflexivity.
  - apply (proj1 (proj2 (theme_reload_round_trip ∅ {| ThemeContext.matchMedia := None |}
                           {| ThemeContext.matchMedia :=
                                Some (fun query =>
                                        {| ThemeContext.matches :=
                                             str_eq query "(prefers-color-scheme: dark)" |}) |}
                           [ThemeContext.SetTheme "sepia"]) Hl Hd)).
    reflexivity.
  - exact (proj2 (theme_reload_round_trip ∅ {| ThemeContext.matchMedia := None |}
                    {| ThemeContext.matchMedia := None |}
                    [ThemeContext.SetTheme "sepia"]) Hl Hd).
Defined.

(** X4. Every toggle flips [isDark], from any theme whatever: after [n]
    toggles [isDark] is what it was exactly when [n] is even. *)
Theorem isDark_after_toggles (p : ThemeContext.Provider) (n : nat) :
  ThemeContext.isDark
    (ThemeContext.run p (repeat ThemeContext.ToggleTheme n))
  = xorb (ThemeContext.isDark p) (Nat.odd n).
Proof.
  revert p. induction n as [|n IH]; intros p.
  - simpl. now destruct (ThemeContext.isDark p).
  - cbn [repeat]. unfold ThemeContext.run in *. cbn [foldl ThemeContext.act].
    rewrite IH, Nat.odd_succ, <- Nat.negb_odd.
    unfold ThemeContext.isDark. rewrite toggleTheme_theme.
    unfold ThemeContext.toggle.
    destruct (str_eq (ThemeContext.theme p) "dark"), (Nat.odd n); reflexivity.
Qed.

(** X5. The theme is ['light'] or ['dark'] from the first render on, also
    when the stored value is neither, and stays so as long as consumers
    toggle or set one of the two. *)
Theorem theme_stays_light_or_dark
    (storage : gmap string string) (window : ThemeContext.Window)
    (actions : list ThemeContext.Action) :
  Forall (fun a => a = ThemeContext.ToggleTheme
                   \/ a = ThemeContext.SetTheme "light"
                   \/ a = ThemeContext.SetTheme "dark") actions ->
  let t := ThemeContext.theme (ThemeContext.run (ThemeContext.mount storage window) actions) in
  t = "light" \/ t = "dark".
Proof.
  intros Hall. simpl.
  assert (H : ThemeContext.theme (ThemeContext.mount storage window) = "light"
              \/ ThemeContext.theme (ThemeContext.mount storage window) = "dark")
    by (rewrite mount_theme; apply getInitialTheme_light_or_dark).
  revert H. generalize (ThemeContext.mount storage window).
  unfold ThemeContext.run.
  induction Hall as [|a actions Ha _ IH]; intros p Hp; simpl.
  - assumption.
  - apply IH. destruct Ha as [-> | [-> | ->]]; simpl.
    + rewrite toggleTheme_theme. destruct Hp as [-> | ->]; [now right | now left].
    + rewrite setTheme_theme. now left.
    + rewrite setTheme_theme. now right.
Qed.

(** A stored value that is no theme, a system without [matchMedia], one
    toggle: the theme is ['dark']. *)
Lemma theme_stays_light_or_dark_witness :
  let t := ThemeContext.theme
             (ThemeContext.run
                (ThemeContext.mount {[ ThemeContext.THEME_STORAGE_KEY := "sepia" ]}
                   {| ThemeContext.matchMedia := None |})
                [ThemeContext.ToggleTheme]) in
  t = "light" \/ t = "dark".
Proof.
  apply (theme_stays_light_or_dark
           {[ ThemeContext.THEME_STORAGE_KEY := "sepia" ]}
           {| ThemeContext.matchMedia := None |} [ThemeContext.ToggleTheme]).
  repeat constructor.
Defined.

(** ** Authentication service: what decides the message *)

Ltac unfold_calls :=
  unfold AuthService.call, AuthService.login, AuthService.register,
    AuthService.loginWithGoogle, AuthService.getMe, AuthService.refreshToken,
    AuthService.deleteAccount.

Ltac split_ifs :=
  repeat match goal with
         | |- context [if ?b then _ else _] => destruct b
         end.

Section AuthMessageFacts.
Import AuthService.

Lemma status_is_http_failure s raw n :
  status_is (http_failure s raw) n = Z.eqb s n.
Proof. reflexivity. Qed.

Lemma code_is_http_failure s raw c : code_is (http_failure s raw) c = false.
Proof. reflexivity. Qed.

Lemma status_is_unique e s n :
  status_is e s = true -> n <> s -> status_is e n = false.
Proof.
  unfold status_is. destruct (response e) as [r|]; [|discriminate].
  intros H Hn. apply Z.eqb_eq in H. apply Z.eqb_neq. congruence.
Qed.

Lemma call_same_fields {Data : Type} (op : Operation) (e e' : TransportFailure) :
  response e = response e' -> code e = code e' ->
  call (Data := Data) op (inr e) = call op (inr e').
Proof.
  intros Hr Hc. destruct op; unfold_calls; unfold status_is, code_is;
    rewrite Hr, Hc; reflexivity.
Qed.
Lemma status_is_unhandled e n statuses :
  (forall r, response e = Some r -> ~ In (status r) statuses) ->
  In n statuses -> status_is e n = false.
Proof.
  intros Hun Hin. unfold status_is. destruct (response e) as [r|] eqn:Hr; [| reflexivity].
  apply Z.eqb_neq. intros Heq. apply (Hun r eq_refl). now rewrite Heq.
Qed.

Lemma code_is_other e c : code e <> Some c -> code_is e c = false.
Proof.
  unfold code_is. destruct (code e) as [c'|]; [| reflexivity].
  intros H. apply str_eq_false. congruence.
Qed.

Lemma code_is_same e c : code e = Some c -> code_is e c = true.
Proof. unfold code_is. intros ->. apply str_eq_refl. Qed.

End AuthMessageFacts.

(** X6. The text the transport puts into its rejection never reaches the
    caller: two rejections with the same response and the same error code
    give one and the same error, and that error is built by the service. *)
Theorem outcome_ignores_transport_text
    (Data : Type) (op : AuthService.Operation) (e e' : AuthService.TransportFailure) :
  AuthService.response e = AuthService.response e' ->
  AuthService.code e = AuthService.code e' ->
  exists m,
    AuthService.call (Data := Data) op (inr e)
      = AuthService.Rejected (AuthService.NewError m) /\
    AuthService.call (Data := Data) op (inr e')
      = AuthService.Rejected (AuthService.NewError m).
Proof.
  intros Hr Hc. destruct (call_never_raw (Data := Data) op e) as [m Hm].
  exists m. split; [assumption |].
  rewrite <- Hm. symmetry. now apply call_same_fields.
Qed.

Lemma outcome_ignores_transport_text_witness :
  exists m,
    AuthService.call (Data := unit) AuthService.GetMe
      (inr (AuthService.http_failure 401 "Unauthorized"))
      = AuthService.Rejected (AuthService.NewError m) /\
    AuthService.call (Data := unit) AuthService.GetMe
      (inr (AuthService.http_failure 401 "token signature mismatch at byte 17"))
      = AuthService.Rejected (AuthService.NewError m).
Proof.
  apply (outcome_ignores_transport_text unit AuthService.GetMe
           (AuthService.http_failure 401 "Unauthorized")
           (AuthService.http_failure 401 "token signature mismatch at byte 17"));
    reflexivity.
Defined.

(** X7. A status the operation has a branch for decides the outcome alone:
    the error code of the rejection is not looked at, so a rejection that
    carries both such a status and the code NETWORK_ERROR is reported by its
    status. *)
Theorem handled_status_decides_outcome
    (Data : Type) (op : AuthService.Operation) (e : AuthService.TransportFailure) (s : Z) :
  In s (AuthService.handled op) ->
  AuthService.status_is e s = true ->
  AuthService.call (Data := Data) op (inr e)
  = AuthService.call op (inr (AuthService.http_failure s "")).
Proof.
  intros Hin Hs.
  destruct op; simpl in Hin; unfold_calls;
    repeat (destruct Hin as [<- | Hin]; [| try contradiction]);
    rewrite ?status_is_http_failure, ?code_is_http_failure; simpl;
    rewrite ?Hs;
    rewrite ?(status_is_unique e _ _ Hs) by discriminate;
    reflexivity.
Qed.

Lemma handled_status_decides_outcome_witness :
  AuthService.call (Data := unit) AuthService.Login
    (inr {| AuthService.response := Some {| AuthService.status := 401 |};
            AuthService.code := Some "NETWORK_ERROR";
            AuthService.raw_message := "Request failed" |})
  = AuthService.call AuthService.Login (inr (AuthService.http_failure 401 "")).
Proof.
  apply (handled_status_decides_outcome unit AuthService.Login _ 401).
  - simpl. left. reflexivity.
  - reflexivity.
Defined.

(** X8. A rejection that no status branch of the operation takes (its
    response has a status the operation has no branch for, or it has no
    response at all) is reported by its error code alone: with the network
    message when the code is NETWORK_ERROR, and with the fallback message of
    the operation otherwise.  So a 404 from getMe, a 401 from register or a
    403 from anything tell the caller no more than a server error does. *)
Theorem unhandled_status_falls_back
    (Data : Type) (op : AuthService.Operation) (e : AuthService.TransportFailure) :
  (forall r, AuthService.response e = Some r ->
             ~ In (AuthService.status r) (AuthService.handled op)) ->
  (AuthService.code e <> Some "NETWORK_ERROR" ->
   AuthService.call (Data := Data) op (inr e)
   = AuthService.Rejected
       (AuthService.NewError
          match op with
          | AuthService.Login => "Login failed. Please try again later."
          | AuthService.Register => "Registration failed. Please try again later."
          | AuthService.LoginWithGoogle => "Google login failed. Please try again later."
          | AuthService.GetMe => "Failed to get user information. Please try again."
          | AuthService.RefreshToken => "Token refresh failed. Please log in again."
          | AuthService.DeleteAccount => "Account deletion failed. Please try again."
          end)) /\
  (AuthService.code e = Some "NETWORK_ERROR" ->
   AuthService.call (Data := Data) op (inr e)
   = AuthService.Rejected
       (AuthService.NewError
          "Network connection failed. Please check your internet connection and try again.")).
Proof.
  intros Hun. split; intros Hc.
  - apply code_is_other in Hc.
    destruct op; unfold_calls;
      rewrite ?(status_is_unhandled e _ _ Hun) by (simpl; tauto);
      rewrite Hc; reflexivity.
  - apply code_is_same in Hc.
    destruct op; unfold_calls;
      rewrite ?(status_is_unhandled e _ _ Hun) by (simpl; tauto);
      rewrite Hc; reflexivity.
Qed.

(** A 404 from getMe reads like any server error; the same 404 on a
    rejection that carries the code NETWORK_ERROR is reported as a network
    failure; a rejection without a response is the fallback as well. *)
Lemma unhandled_status_falls_back_witness :
  AuthService.getMe (Data := unit) (inr (AuthService.http_failure 404 "Not Found"))
  = AuthService.Rejected
      (AuthService.NewError "Failed to get user information. Please try again.") /\
  AuthService.getMe (Data := unit)
    (inr {| AuthService.response := Some {| AuthService.status := 404 |};
            AuthService.code := Some "NETWORK_ERROR";
            AuthService.raw_message := "Not Found" |})
  = AuthService.Rejected
      (AuthService.NewError
         "Network connection failed. Please check your internet connection and try again.") /\
  AuthService.register (Data := unit)
    (inr {| AuthService.response := None;
            AuthService.code := Some "ECONNABORTED";
            AuthService.raw_message := "timeout of 10000ms exceeded" |})
  = AuthService.Rejected
      (AuthService.NewError "Registration failed. Please try again later.").
Proof.
  split; [| split].
  - apply (proj1 (unhandled_status_falls_back unit AuthService.GetMe
                    (AuthService.http_failure 404 "Not Found")
                    ltac:(simpl; intros r Hr [H | []]; injection Hr as <-; discriminate H))).
    discriminate.
  - apply (proj2 (unhandled_status_falls_back unit AuthService.GetMe
                    {| AuthService.response := Some {| AuthService.status := 404 |};
                       AuthService.code := Some "NETWORK_ERROR";
                       AuthService.raw_message := "Not Found" |}
                    ltac:(simpl; intros r Hr [H | []]; injection Hr as <-; discriminate H))).
    reflexivity.
  - apply (proj1 (unhandled_status_falls_back unit AuthService.Register
                    {| AuthService.response := None;
                       AuthService.code := Some "ECONNABORTED";
                       AuthService.raw_message := "timeout of 10000ms exceeded" |}
                    ltac:(simpl; intros r Hr; discriminate Hr))).
    discriminate.
Defined.

(** X9. The message of a failure names its operation: two different
    operations fail with the same error only when both report the network
    message. *)
Theorem failure_message_identifies_operation
    (Data : Type) (op1 op2 : AuthService.Operation)
    (e1 e2 : AuthService.TransportFailure) :
  AuthService.call (Data := Data) op1 (inr e1) = AuthService.call op2 (inr e2) ->
  op1 = op2 \/
  AuthService.call (Data := Data) op1 (inr e1)
  = AuthService.Rejected (AuthService.NewError AuthService.NETWORK_MESSAGE).
Proof.
  destruct op1, op2; try (intros _; left; reflexivity);
    unfold_calls; split_ifs; intros H;
    first [right; reflexivity | discriminate H].
Qed.

Lemma failure_message_identifies_operation_witness :
  AuthService.call (Data := unit) AuthService.Login
    (inr (AuthService.network_failure "timeout"))
  = AuthService.Rejected (AuthService.NewError AuthService.NETWORK_MESSAGE).
Proof.
  destruct (failure_message_identifies_operation unit
              AuthService.Login AuthService.Register
              (AuthService.network_failure "timeout")
              (AuthService.network_failure "socket hang up") eq_refl) as [H | H].
  - discriminate H.
  - exact H.
Defined.

(** ** Registration form *)

Section RegisterFacts.
Import Register.

Lemma passwords_differ f :
  password f <> confirmPassword f ->
  negb (str_eq (password f) (confirmPassword f)) = true.
Proof. intros H. apply str_eq_false in H. now rewrite H. Qed.

Lemma passwords_agree f :
  password f = confirmPassword f ->
  negb (str_eq (password f) (confirmPassword f)) = false.
Proof. intros H. rewrite H, str_eq_refl. reflexivity. Qed.

Lemma password_short f :
  String.length (password f) < 6 -> (String.length (password f) <? 6)%nat = true.
Proof. intros H. now apply Nat.ltb_lt. Qed.

Lemma password_long f :
  6 <= String.length (password f) -> (String.length (password f) <? 6)%nat = false.
Proof. intros H. apply Nat.ltb_ge. exact H. Qed.
Lemma submit_message_mismatch register stale f :
  password f <> confirmPassword f ->
  validationErrorFrom stale (fst (handleSubmit register f)) = "Passwords do not match".
Proof.
  intros H. unfold handleSubmit. rewrite (passwords_differ f H). reflexivity.
Qed.

Lemma submit_message_short register stale f :
  password f = confirmPassword f -> String.length (password f) < 6 ->
  validationErrorFrom stale (fst (handleSubmit register f))
  = "Password must be at least 6 characters".
Proof.
  intros H Hs. unfold handleSubmit.
  rewrite (passwords_agree f H), (password_short f Hs). reflexivity.
Qed.

Lemma submit_message_valid register stale f :
  password f = confirmPassword f -> 6 <= String.length (password f) ->
  validationErrorFrom stale (fst (handleSubmit register f)) = "".
Proof.
  intros H Hl. unfold handleSubmit.
  rewrite (passwords_agree f H), (password_long f Hl).
  destruct (register _ _ _) as [sent [|]]; reflexivity.
Qed.

Lemma truthy_nonempty m : m <> "" -> truthy (Some m) = true.
Proof. intros H. apply str_eq_false in H. unfold truthy. now rewrite H. Qed.

Lemma banner_nonempty error m : m <> "" -> banner error m = Some m.
Proof.
  intros Hm. pose proof (truthy_nonempty m Hm) as Ht.
  unfold banner, or_else. rewrite Ht.
  destruct (truthy error) eqn:E; cbv iota; [rewrite E | rewrite Ht]; reflexivity.
Qed.

Lemma banner_empty error : banner error "" = if truthy error then error else None.
Proof.
  unfold banner, or_else.
  destruct (truthy error) eqn:E; cbv iota; rewrite ?E; reflexivity.
Qed.
End RegisterFacts.

(** X10. The validation message after a submission is decided by the form
    alone: it is the mismatch message whenever the two passwords differ,
    also when the password is too short as well; the length message when
    they agree and the password has fewer than 6 characters; and empty
    otherwise.  A message left by an earlier submission never survives, and
    what [register] does has no part in it. *)
Theorem submit_validation_message
    (register : string -> string -> string -> list Register.Request * bool)
    (stale : string) (f : Register.FormData) :
  let message :=
    Register.validationErrorFrom stale (fst (Register.handleSubmit register f)) in
  (Register.password f <> Register.confirmPassword f ->
   message = "Passwords do not match") /\
  (Register.password f = Register.confirmPassword f ->
   String.length (Register.password f) < 6 ->
   message = "Password must be at least 6 characters") /\
  (Register.password f = Register.confirmPassword f ->
   6 <= String.length (Register.password f) ->
   message = "").
Proof.
  simpl. split; [| split].
  - apply submit_message_mismatch.
  - apply submit_message_short.
  - apply submit_message_valid.
Qed.

(** X11. On a form that passes both checks the handler calls [register]
    once, with the e-mail, the user name and the password of the form (the
    confirmation is not passed on), and the router is sent to /chat exactly
    when that call resolved.  On a form that fails a check nothing is
    requested and the router is not touched. *)
Theorem submit_calls_register_and_navigates_on_success
    (register : string -> string -> string -> list Register.Request * bool)
    (f : Register.FormData) :
  let result := Register.handleSubmit register f in
  let called :=
    register (Register.email f) (Register.username f) (Register.password f) in
  (Register.password f = Register.confirmPassword f ->
   6 <= String.length (Register.password f) ->
   snd result = fst called /\
   (forall to, In (Register.Navigate to) (fst result)
               <-> to = "/chat" /\ snd called = true)) /\
  (Register.password f <> Register.confirmPassword f
   \/ String.length (Register.password f) < 6 ->
   snd result = [] /\ forall to, ~ In (Register.Navigate to) (fst result)).
Proof.
  simpl. unfold Register.handleSubmit. split.
  - intros H Hl. rewrite (passwords_agree f H), (password_long f Hl).
    destruct (register _ _ _) as [sent [|]]; simpl; (split; [reflexivity |]);
      intros to; split.
    + intros [Hin | [Hin | [Hin | []]]]; try discriminate Hin.
      injection Hin as <-. now split.
    + intros [-> _]. right; right; left; reflexivity.
    + intros [Hin | [Hin | []]]; discriminate Hin.
    + intros [_ Hf]. discriminate Hf.
  - intros [H | Hs].
    + rewrite (passwords_differ f H). split; [reflexivity |].
      intros to [Hin | [Hin | [Hin | []]]]; discriminate Hin.
    + destruct (negb (str_eq (Register.password f) (Register.confirmPassword f))).
      * split; [reflexivity |].
        intros to [Hin | [Hin | [Hin | []]]]; discriminate Hin.
      * rewrite (password_short f Hs). split; [reflexivity |].
        intros to [Hin | [Hin | [Hin | []]]]; discriminate Hin.
Qed.

(** X12. Changes of the form compose as edits of independent fields: a
    later change of a field overrides an earlier one of the same field, and
    changes of different fields can be swapped. *)
Theorem handleChange_last_wins_and_commutes
    (n m v w : string) (f : Register.FormData) :
  Register.handleChange n v (Register.handleChange n w f) = Register.handleChange n v f /\
  (n <> m ->
   Register.handleChange n v (Register.handleChange m w f)
   = Register.handleChange m w (Register.handleChange n v f)).
Proof.
  split.
  - unfold Register.handleChange; simpl.
    destruct (str_eq n "email"), (str_eq n "username"), (str_eq n "password"),
             (str_eq n "confirmPassword"); reflexivity.
  - intros Hnm. unfold Register.handleChange; simpl.
    destruct (str_eq n "email") eqn:N1, (str_eq m "email") eqn:M1;
      try (apply str_eq_true in N1, M1; congruence);
    destruct (str_eq n "username") eqn:N2, (str_eq m "username") eqn:M2;
      try (apply str_eq_true in N2, M2; congruence);
    destruct (str_eq n "password") eqn:N3, (str_eq m "password") eqn:M3;
      try (apply str_eq_true in N3, M3; congruence);
    destruct (str_eq n "confirmPassword") eqn:N4, (str_eq m "confirmPassword") eqn:M4;
      try (apply str_eq_true in N4, M4; congruence);
    reflexivity.
Qed.

(** X13. What is typed is what is passed on: after the four inputs were
    filled, in whatever state the form was before, a submission with a
    password of at least 6 characters requests what one call of [register]
    with the typed e-mail, user name and password requests. *)
Theorem typed_values_are_submitted
    (register : string -> string -> string -> list Register.Request * bool)
    (f : Register.FormData) (e u p : string) :
  6 <= String.length p ->
  snd (Register.handleSubmit register
         (Register.handleChange "confirmPassword" p
            (Register.handleChange "password" p
               (Register.handleChange "username" u
                  (Register.handleChange "email" e f)))))
  = fst (register e u p).
Proof.
  intros Hl. unfold Register.handleSubmit, Register.handleChange; simpl.
  rewrite str_eq_refl; simpl.
  apply Nat.ltb_ge in Hl. rewrite Hl.
  destruct (register e u p) as [sent [|]]; reflexivity.
Qed.

Lemma typed_values_are_submitted_witness :
  snd (Register.handleSubmit (Register.register_via_service true)
         (Register.handleChange "confirmPassword" "s3cret!"
            (Register.handleChange "password" "s3cret!"
               (Register.handleChange "username" "ada"
                  (Register.handleChange "email" "ada@example.org"
                     {| Register.email := ""; Register.username := "";
                        Register.password := ""; Register.confirmPassword := "" |})))))
  = [Register.PostRegister "ada@example.org" "ada" "s3cret!"].
Proof.
  apply (typed_values_are_submitted (Register.register_via_service true) _
           "ada@example.org" "ada" "s3cret!").
  simpl. lia.
Defined.

(** X14. The banner gives the form's own message precedence: after a
    submission that fails a local check it shows the validation message,
    whatever error the authentication context holds; after one that passes
    them it shows the context's error, or nothing when there is none. *)
Theorem banner_prefers_validation_message
    (register : string -> string -> string -> list Register.Request * bool)
    (stale : string) (error : option string) (f : Register.FormData) :
  let message :=
    Register.validationErrorFrom stale (fst (Register.handleSubmit register f)) in
  (Register.password f <> Register.confirmPassword f
   \/ String.length (Register.password f) < 6 ->
   Register.banner error message = Some message /\ message <> "") /\
  (Register.password f = Register.confirmPassword f ->
   6 <= String.length (Register.password f) ->
   Register.banner error message
   = if truthy error then error else None).
Proof.
  simpl. split.
  - intros Hbad.
    assert (Hm : Register.validationErrorFrom stale
                   (fst (Register.handleSubmit register f)) = "Passwords do not match"
                 \/ Register.validationErrorFrom stale
                      (fst (Register.handleSubmit register f))
                    = "Password must be at least 6 characters").
    { destruct (string_dec (Register.password f) (Register.confirmPassword f)) as [He | Hne].
      - destruct Hbad as [H | Hs]; [contradiction |].
        right. now apply submit_message_short.
      - left. now apply submit_message_mismatch. }
    destruct Hm as [-> | ->]; split;
      first [apply banner_nonempty; discriminate | discriminate].
  - intros H Hl. rewrite (submit_message_valid register stale f H Hl).
    apply banner_empty.
Qed.

(** ** Chat window: following the bottom *)

Section ScrollFacts.
Import ChatWindow.
Local Open Scope Z_scope.







End ScrollFacts.





(** ** Chat window: following a streamed answer *)

Section FollowFacts.
Import ChatWindow.
Local Open Scope Z_scope.

Lemma last_not_smooth_cons b (frames : list Behavior) :
  last (b :: frames) <> Some smooth -> frames <> [] -> last frames <> Some smooth.
Proof. destruct frames as [|b' frames]; [congruence | intros H _; exact H]. Qed.

Lemma scrollEffects_streaming prev next committed :
  streamingMessage prev <> streamingMessage next ->
  (isNearBottom committed = true /\
   exists frames, scrollEffects prev next committed = frames ++ [auto])
  \/ (isNearBottom committed = false /\ scrollEffects prev next committed = []).
Proof.
  intros Hs. apply str_eq_false in Hs. unfold scrollEffects. rewrite Hs.
  destruct (isNearBottom committed).
  - left. split; [reflexivity |]. rewrite !andb_true_r. simpl. eexists. reflexivity.
  - right. split; [reflexivity |]. rewrite !andb_false_r. reflexivity.
Qed.

(** What a streamed answer keeps true of the viewport: the container is
    mounted with its client height; the youngest frame asked for, if any,
    is an ['auto'] one; and once no frame is left to run no smooth scroll
    is under way and the view is at the bottom. *)
Lemma moment_keeps_following (height : Z) (v : Viewport) (m : Moment) :
  0 <= height ->
  match m with
  | RenderCommitted prev next delta =>
      streamingMessage prev <> streamingMessage next /\ delta < 140
  | _ => True
  end ->
  (exists el, container v = Some el /\ clientHeight el = height /\
              last (requestedFrames v) <> Some smooth /\
              (requestedFrames v = [] ->
               smoothTarget v = None /\
               scrollHeight el - scrollTop el - clientHeight el <= 0)) ->
  exists el, container (moment v m) = Some el /\ clientHeight el = height /\
             last (requestedFrames (moment v m)) <> Some smooth /\
             (requestedFrames (moment v m) = [] ->
              smoothTarget (moment v m) = None /\
              scrollHeight el - scrollTop el - clientHeight el <= 0).
Proof.
  intros Hheight Hm (el & Hel & Hch & Hlast & Hrest).
  destruct m as [prev next delta | | top].
  - destruct Hm as [Hs Hd]. unfold moment, rerender. rewrite Hel.
    cbn [resizeContent container requestedFrames smoothTarget].
    eexists. split; [reflexivity |]. split; [exact Hch |].
    destruct (scrollEffects_streaming prev next
                (Some {| scrollHeight := scrollHeight el + delta;
                         scrollTop := scrollTop el;
                         clientHeight := clientHeight el |}) Hs)
      as [(_ & frames & ->) | (Hfar & ->)].
    + split.
      * rewrite app_assoc, last_snoc. discriminate.
      * intros Hnil. apply app_eq_nil in Hnil. destruct Hnil as [_ Hnil].
        apply app_eq_nil in Hnil. destruct Hnil as [_ Hnil]. discriminate Hnil.
    + rewrite app_nil_r. split; [exact Hlast |].
      intros Hnil. destruct (Hrest Hnil) as [Htarget Hbottom].
      apply Z.ltb_ge in Hfar. simpl in Hfar. lia.
  - unfold moment. destruct (requestedFrames v) as [|[|] rest] eqn:Hreq.
    + exists el. rewrite Hreq. auto.
    + destruct rest as [|b rest]; [now contradiction Hlast |].
      cbn [container requestedFrames smoothTarget].
      exists el. split; [exact Hel |]. split; [exact Hch |].
      split; [exact Hlast | discriminate].
    + cbn [container requestedFrames smoothTarget]. rewrite Hel.
      eexists. split; [reflexivity |]. split; [exact Hch |]. split.
      * destruct rest as [|b rest]; [discriminate | exact Hlast].
      * intros _. split; [reflexivity |]. simpl. lia.
  - unfold moment. rewrite Hel.
    destruct (smoothTarget v) as [target|] eqn:Htarget.
    + destruct ((Z.min (scrollTop el) target <=? top)
                && (top <=? Z.max (scrollTop el) target)).
      * cbn [container requestedFrames smoothTarget].
        eexists. split; [reflexivity |]. split; [exact Hch |].
        split; [exact Hlast |].
        intros Hnil. destruct (Hrest Hnil) as [Hnone _]. discriminate Hnone.
      * exists el. rewrite Htarget. auto.
    + exists el. rewrite Htarget. auto.
Qed.

Lemma play_keeps_following (height : Z) (moments : list Moment) :
  0 <= height ->
  Forall (fun m => match m with
                   | RenderCommitted prev next delta =>
                       streamingMessage prev <> streamingMessage next /\ delta < 140
                   | _ => True
                   end) moments ->
  forall v,
    (exists el, container v = Some el /\ clientHeight el = height /\
                last (requestedFrames v) <> Some smooth /\
                (requestedFrames v = [] ->
                 smoothTarget v = None /\
                 scrollHeight el - scrollTop el - clientHeight el <= 0)) ->
    exists el, container (play v moments) = Some el /\ clientHeight el = height /\
               last (requestedFrames (play v moments)) <> Some smooth /\
               (requestedFrames (play v moments) = [] ->
                smoothTarget (play v moments) = None /\
                scrollHeight el - scrollTop el - clientHeight el <= 0).
Proof.
  intros Hheight Hall. unfold play.
  induction Hall as [|m moments Hm _ IH]; intros v Hv; simpl.
  - exact Hv.
  - apply IH. now apply moment_keeps_following.
Qed.

Lemma frames_run_out (v : Viewport) :
  requestedFrames
    (play v (repeat AnimationFrame (length (requestedFrames v)))) = [].
Proof.
  unfold play.
  remember (length (requestedFrames v)) as n eqn:Hn.
  revert v Hn. induction n as [|n IH]; intros v Hn; simpl.
  - destruct (requestedFrames v); [reflexivity | discriminate Hn].
  - apply IH. unfold moment.
    destruct (requestedFrames v) as [|[|] rest]; simpl in *; congruence.
Qed.

Lemma Forall_frames (P : Moment -> Prop) n :
  P AnimationFrame -> Forall P (repeat AnimationFrame n).
Proof. intros H. induction n; simpl; constructor; assumption. Qed.
End FollowFacts.

(** X17. A streamed answer is followed.  From a view at rest at the bottom,
    let renders be committed that each change the streamed text and add
    less than 140 pixels, let the frames asked for run and smooth scrolls
    move, in any order and at any pace, renders also before earlier frames
    ran or while a smooth scroll is under way.  Then whenever no frame is
    left to run the view is at the bottom of the content and no scroll is
    under way; and running the frames that are left always leads there. *)
Theorem streamed_answer_is_followed
    (el : ChatWindow.Element) (moments : list ChatWindow.Moment) :
  (0 <= ChatWindow.clientHeight el)%Z ->
  (ChatWindow.scrollHeight el - ChatWindow.scrollTop el - ChatWindow.clientHeight el <= 0)%Z ->
  Forall (fun m => match m with
                   | ChatWindow.RenderCommitted prev next delta =>
                       ChatWindow.streamingMessage prev <> ChatWindow.streamingMessage next
                       /\ (delta < 140)%Z
                   | _ => True
                   end) moments ->
  let v := ChatWindow.play (ChatWindow.atRest el) moments in
  let settled :=
    ChatWindow.play v
      (repeat ChatWindow.AnimationFrame (length (ChatWindow.requestedFrames v))) in
  (ChatWindow.requestedFrames v = [] ->
   exists el',
     ChatWindow.container v = Some el' /\
     ChatWindow.smoothTarget v = None /\
     (ChatWindow.scrollHeight el' - ChatWindow.scrollTop el'
      - ChatWindow.clientHeight el' <= 0)%Z) /\
  ChatWindow.requestedFrames settled = [] /\
  exists el',
    ChatWindow.container settled = Some el' /\
    ChatWindow.smoothTarget settled = None /\
    (ChatWindow.scrollHeight el' - ChatWindow.scrollTop el'
     - ChatWindow.clientHeight el' <= 0)%Z.
Proof.
  intros Hheight Hbottom Hall v settled.
  assert (Hv : exists el',
             ChatWindow.container v = Some el' /\
             ChatWindow.clientHeight el' = ChatWindow.clientHeight el /\
             last (ChatWindow.requestedFrames v) <> Some ChatWindow.smooth /\
             (ChatWindow.requestedFrames v = [] ->
              ChatWindow.smoothTarget v = None /\
              (ChatWindow.scrollHeight el' - ChatWindow.scrollTop el'
               - ChatWindow.clientHeight el' <= 0)%Z)).
  { apply (play_keeps_following _ moments Hheight Hall).
    exists el. simpl. repeat split; [discriminate | exact Hbottom]. }
  split; [| split].
  - intros Hnone. destruct Hv as (el' & Hel' & _ & _ & Hrest).
    destruct (Hrest Hnone) as [Htarget Hb]. now exists el'.
  - apply frames_run_out.
  - destruct (play_keeps_following _
                (repeat ChatWindow.AnimationFrame (length (ChatWindow.requestedFrames v)))
                Hheight (Forall_frames _ _ I) v Hv)
      as (el' & Hel' & _ & _ & Hrest).
    destruct (Hrest (frames_run_out v)) as [Htarget Hb]. now exists el'.
Qed.

(** An answer streamed in two pieces whose renders are both committed
    before the first frame runs, and completed by a render that appends the
    message and clears the streamed text: a smooth and an auto frame. *)
Lemma streamed_answer_is_followed_witness :
  let moments :=
    [ChatWindow.RenderCommitted
       {| ChatWindow.messages_length := 4; ChatWindow.streamingMessage := "" |}
       {| ChatWindow.messages_length := 4; ChatWindow.streamingMessage := "The" |} 100;
     ChatWindow.RenderCommitted
       {| ChatWindow.messages_length := 4; ChatWindow.streamingMessage := "The" |}
       {| ChatWindow.messages_length := 4; ChatWindow.streamingMessage := "The answer" |} 100;
     ChatWindow.AnimationFrame;
     ChatWindow.RenderCommitted
       {| ChatWindow.messages_length := 4; ChatWindow.streamingMessage := "The answer" |}
       {| ChatWindow.messages_length := 5; ChatWindow.streamingMessage := "" |} 12;
     ChatWindow.AnimationFrame;
     ChatWindow.SmoothScrollMoved 805;
     ChatWindow.AnimationFrame]%Z in
  let v :=
    ChatWindow.play
      (ChatWindow.atRest {| ChatWindow.scrollHeight := 1000;
                            ChatWindow.scrollTop := 600;
                            ChatWindow.clientHeight := 400 |}) moments in
  exists el',
    ChatWindow.container v = Some el' /\
    ChatWindow.smoothTarget v = None /\
    (ChatWindow.scrollHeight el' - ChatWindow.scrollTop el'
     - ChatWindow.clientHeight el' <= 0)%Z.
Proof.
  intros moments v.
  apply (proj1 (streamed_answer_is_followed
                  {| ChatWindow.scrollHeight := 1000;
                     ChatWindow.scrollTop := 600;
                     ChatWindow.clientHeight := 400 |} moments
                  ltac:(simpl; lia) ltac:(simpl; lia)
                  ltac:(repeat (constructor;
                                [first [exact I | split; [discriminate | reflexivity]] |]);
                        constructor))).
  reflexivity.
Defined.

(** Without a change of the streamed text the view can be left behind: a
    message is appended and followed by a smooth scroll; a second message is
    appended while that scroll has not moved yet, 278 pixels of content are
    below the view, so no frame is asked for, and the scroll that was under
    way ends at the bottom as it was. *)
Lemma appended_message_can_be_left_behind :
  let v :=
    ChatWindow.play
      (ChatWindow.atRest {| ChatWindow.scrollHeight := 1000;
                            ChatWindow.scrollTop := 600;
                            ChatWindow.clientHeight := 400 |})
      [ChatWindow.RenderCommitted
         {| ChatWindow.messages_length := 3; ChatWindow.streamingMessage := "" |}
         {| ChatWindow.messages_length := 4; ChatWindow.streamingMessage := "" |} 139;
       ChatWindow.AnimationFrame;
       ChatWindow.RenderCommitted
         {| ChatWindow.messages_length := 4; ChatWindow.streamingMessage := "" |}
         {| ChatWindow.messages_length := 5; ChatWindow.streamingMessage := "" |} 139;
       ChatWindow.SmoothScrollMoved 739]%Z in
  ChatWindow.requestedFrames v = [] /\
  ChatWindow.smoothTarget v = None /\
  ChatWindow.container v
  = Some {| ChatWindow.scrollHeight := 1278;
            ChatWindow.scrollTop := 739;
            ChatWindow.clientHeight := 400 |}%Z.
Proof. repeat split. Qed.

(** ** Chat window: the sidebar *)

Section SidebarFacts.
Import ChatWindow.
Local Open Scope Z_scope.

Lemma sidebarStep_closed_at_desktop l ev :
  (DESKTOP_BREAKPOINT <= innerWidth l -> isSidebarOpen l = false) ->
  DESKTOP_BREAKPOINT <= innerWidth (sidebarStep l ev) ->
  isSidebarOpen (sidebarStep l ev) = false.
Proof.
  intros Hinv.
  destruct ev as [width| |created| | |]; simpl;
    unfold handleResize, handleToggleSidebar, handleNewChat; simpl.
  - destruct (Z.leb_spec DESKTOP_BREAKPOINT width); simpl; [reflexivity | lia].
  - destruct (Z.leb_spec DESKTOP_BREAKPOINT (innerWidth l)); simpl; [exact Hinv | lia].
  - destruct created; [| exact Hinv].
    destruct (Z.ltb_spec (innerWidth l) DESKTOP_BREAKPOINT); simpl; [reflexivity | exact Hinv].
  - reflexivity.
  - reflexivity.
  - reflexivity.
Qed.

Lemma sidebarStep_expanded_below l ev :
  match ev with WindowResized width => width < DESKTOP_BREAKPOINT | _ => True end ->
  innerWidth l < DESKTOP_BREAKPOINT /\ isSidebarCollapsed l = false ->
  innerWidth (sidebarStep l ev) < DESKTOP_BREAKPOINT
  /\ isSidebarCollapsed (sidebarStep l ev) = false.
Proof.
  intros Hev [Hw Hc].
  destruct ev as [width| |created| | |]; simpl;
    unfold handleResize, handleToggleSidebar, handleNewChat; simpl.
  - destruct (Z.leb_spec DESKTOP_BREAKPOINT width); simpl; [lia | now split].
  - destruct (Z.leb_spec DESKTOP_BREAKPOINT (innerWidth l)); simpl; [lia | now split].
  - destruct created; [| now split].
    destruct (Z.ltb_spec (innerWidth l) DESKTOP_BREAKPOINT); simpl; now split.
  - now split.
  - now split.
  - now split.
Qed.
End SidebarFacts.

(** X18. Whenever the window is at least 1024 pixels wide the drawer of the
    sidebar is closed, after any sequence of resizes and clicks: no handler
    opens it at that width and the resize handler closes it on the way
    there. *)
Theorem drawer_closed_at_desktop_width
    (width : Z) (events : list ChatWindow.SidebarEvent) :
  let l := ChatWindow.sidebarRun (ChatWindow.initialLayout width) events in
  (ChatWindow.DESKTOP_BREAKPOINT <= ChatWindow.innerWidth l)%Z ->
  ChatWindow.isSidebarOpen l = false.
Proof.
  simpl. unfold ChatWindow.sidebarRun.
  assert (H : (ChatWindow.DESKTOP_BREAKPOINT
               <= ChatWindow.innerWidth (ChatWindow.initialLayout width))%Z ->
              ChatWindow.isSidebarOpen (ChatWindow.initialLayout width) = false)
    by reflexivity.
  revert H. generalize (ChatWindow.initialLayout width).
  induction events as [|ev events IH]; intros l Hinv; simpl.
  - exact Hinv.
  - apply IH. apply sidebarStep_closed_at_desktop, Hinv.
Qed.

(** The drawer is opened on a phone held upright, the phone is turned and
    the window becomes 1280 pixels wide: the drawer is closed. *)
Lemma drawer_closed_at_desktop_width_witness :
  ChatWindow.isSidebarOpen
    (ChatWindow.sidebarRun (ChatWindow.initialLayout 800)
       [ChatWindow.ToggleSidebarClicked; ChatWindow.WindowResized 1280])
  = false.
Proof.
  apply (drawer_closed_at_desktop_width 800
           [ChatWindow.ToggleSidebarClicked; ChatWindow.WindowResized 1280]).
  vm_compute. discriminate.
Defined.

(** X19. In a window that stays below 1024 pixels the sidebar is never
    collapsed: there the toggle button works the drawer only. *)
Theorem sidebar_never_collapsed_below_breakpoint
    (width : Z) (events : list ChatWindow.SidebarEvent) :
  (width < ChatWindow.DESKTOP_BREAKPOINT)%Z ->
  Forall (fun ev => match ev with
                    | ChatWindow.WindowResized w => (w < ChatWindow.DESKTOP_BREAKPOINT)%Z
                    | _ => True
                    end) events ->
  ChatWindow.isSidebarCollapsed
    (ChatWindow.sidebarRun (ChatWindow.initialLayout width) events) = false.
Proof.
  intros Hw Hall. unfold ChatWindow.sidebarRun.
  assert (H : (ChatWindow.innerWidth (ChatWindow.initialLayout width)
               < ChatWindow.DESKTOP_BREAKPOINT)%Z
              /\ ChatWindow.isSidebarCollapsed (ChatWindow.initialLayout width) = false)
    by (split; [exact Hw | reflexivity]).
  revert H. generalize (ChatWindow.initialLayout width).
  induction Hall as [|ev events Hev _ IH]; intros l Hinv; simpl.
  - apply Hinv.
  - apply IH. apply sidebarStep_expanded_below; assumption.
Qed.

Lemma sidebar_never_collapsed_below_breakpoint_witness :
  ChatWindow.isSidebarCollapsed
    (ChatWindow.sidebarRun (ChatWindow.initialLayout 390)
       [ChatWindow.ToggleSidebarClicked; ChatWindow.WindowResized 844;
        ChatWindow.ToggleSidebarClicked])
  = false.
Proof.
  apply (sidebar_never_collapsed_below_breakpoint 390
           [ChatWindow.ToggleSidebarClicked; ChatWindow.WindowResized 844;
            ChatWindow.ToggleSidebarClicked]).
  - vm_compute. reflexivity.
  - repeat constructor.
Defined.

(** ** Message list *)

Section MessageListFacts.
Import MessageList.

Lemma in_render b messages streamingMessage isLoading :
  In b (render messages streamingMessage isLoading) ->
  (b = EmptyState /\ messages = [] /\ truthy streamingMessage = false)
  \/ In b (imap article messages)
  \/ (b = StreamingArticle (default "" streamingMessage)
      /\ truthy streamingMessage = true)
  \/ (b = Spinner /\ isLoading = true /\ truthy streamingMessage = false).
Proof.
  unfold render. rewrite !in_app_iff. intros [H | [H | [H | H]]].
  - left. destruct messages; simpl in H.
    + destruct (truthy streamingMessage); simpl in H; [contradiction |].
      destruct H as [<- | []]. now repeat split.
    + contradiction.
  - right; left. exact H.
  - right; right; left. destruct (truthy streamingMessage); simpl in H; [| contradiction].
    destruct H as [<- | []]. now split.
  - right; right; right.
    destruct isLoading, (truthy streamingMessage); simpl in H; try contradiction.
    destruct H as [<- | []]. now repeat split.
Qed.

Lemma in_imap_article b (h : nat -> nat) messages :
  In b (imap (fun i => article (h i)) messages) ->
  exists key className label turn text, b = Article key className label turn text.
Proof.
  revert h. induction messages as [|m messages IH]; intros h; simpl.
  - contradiction.
  - intros [<- | H].
    + unfold article. do 5 eexists. reflexivity.
    + apply (IH (h ∘ S)). exact H.
Qed.

Lemma articles_imap (h : nat -> nat) messages :
  articles (imap (fun i => article (h i)) messages)
  = map (fun m => (if str_eq (role m) "user" then "You" else "Assistant", content m))
        messages.
Proof.
  revert h. induction messages as [|m messages IH]; intros h.
  - reflexivity.
  - simpl. f_equal. apply (IH (h ∘ S)).
Qed.

Lemma truthy_text v : truthy v = true -> exists s, v = Some s /\ s <> "".
Proof.
  destruct v as [s|]; simpl; [| discriminate].
  intros H. exists s. split; [reflexivity |].
  apply str_eq_false. now destruct (str_eq s "").
Qed.
End MessageListFacts.

(** X20. The list is never blank, and its parts exclude each other as
    follows: the welcome panel is shown only without any message and
    without streamed text; the spinner is never shown together with the
    streaming article; and the streaming article shows the streamed text,
    which is not empty. *)
Theorem render_parts_exclude_each_other
    (messages : list MessageList.ListedMessage) (streamingMessage : option string)
    (isLoading : bool) :
  let blocks := MessageList.render messages streamingMessage isLoading in
  blocks <> [] /\
  (In MessageList.EmptyState blocks ->
   messages = [] /\ forall b, In b blocks -> b = MessageList.EmptyState \/ b = MessageList.Spinner) /\
  (In MessageList.Spinner blocks ->
   forall text, ~ In (MessageList.StreamingArticle text) blocks) /\
  (forall text, In (MessageList.StreamingArticle text) blocks ->
                streamingMessage = Some text /\ text <> "").
Proof.
  simpl. split; [| split; [| split]].
  - unfold MessageList.render.
    destruct messages as [|m messages]; simpl.
    + destruct (truthy streamingMessage); simpl; discriminate.
    + discriminate.
  - intros H. apply in_render in H.
    destruct H as [(_ & Hm & Ht) | [H | [(H & _) | (H & _)]]]; try discriminate H.
    + split; [exact Hm |]. intros b Hb. apply in_render in Hb.
      destruct Hb as [(Hb & _) | [Hb | [(_ & Hb) | (Hb & _)]]].
      * now left.
      * subst messages. contradiction.
      * congruence.
      * now right.
    + apply (in_imap_article _ id) in H.
      destruct H as (? & ? & ? & ? & ? & H). discriminate H.
  - intros H text Hs. apply in_render in H, Hs.
    destruct H as [(H & _) | [H | [(H & _) | (_ & _ & Ht)]]]; try discriminate H.
    + apply (in_imap_article _ id) in H.
      destruct H as (? & ? & ? & ? & ? & H). discriminate H.
    + destruct Hs as [(Hs & _) | [Hs | [(_ & Hs) | (Hs & _)]]]; try discriminate Hs.
      * apply (in_imap_article _ id) in Hs.
        destruct Hs as (? & ? & ? & ? & ? & Hs). discriminate Hs.
      * congruence.
  - intros text Hs. apply in_render in Hs.
    destruct Hs as [(Hs & _) | [Hs | [(Hs & Ht) | (Hs & _)]]]; try discriminate Hs.
    + apply (in_imap_article _ id) in Hs.
      destruct Hs as (? & ? & ? & ? & ? & Hs). discriminate Hs.
    + apply truthy_text in Ht. destruct Ht as (s & -> & Hne).
      simpl in Hs. injection Hs as ->. now split.
Qed.

(** X21. Every stored message is shown as one article, in the order of the
    list and with its own content, whatever else is on the screen; the
    article is labelled You exactly when the role of the message is
    ['user'], and Assistant for any other role. *)
Theorem render_shows_every_message_once
    (messages : list MessageList.ListedMessage) (streamingMessage : option string)
    (isLoading : bool) :
  let shown :=
    MessageList.articles (MessageList.render messages streamingMessage isLoading) in
  map snd shown = map MessageList.content messages /\
  Forall2 (fun m label => (label = "You" <-> MessageList.role m = "user")
                          /\ (label = "Assistant" <-> MessageList.role m <> "user"))
          messages (map fst shown).
Proof.
  simpl.
  assert (Hshown : MessageList.articles
                     (MessageList.render messages streamingMessage isLoading)
                   = map (fun m => (if str_eq (MessageList.role m) "user"
                                    then "You" else "Assistant",
                                    MessageList.content m)) messages).
  { unfold MessageList.render, MessageList.articles. rewrite !omap_app.
    fold MessageList.articles.
    rewrite (articles_imap id).
    destruct ((length messages =? 0)%nat && negb (truthy streamingMessage)),
             (truthy streamingMessage),
             (isLoading && negb true), (isLoading && negb false);
      simpl; rewrite ?app_nil_r; reflexivity. }
  rewrite Hshown. split.
  - rewrite map_map. reflexivity.
  - rewrite map_map. simpl. clear Hshown.
    induction messages as [|m messages IH]; constructor; [| exact IH].
    destruct (str_eq (MessageList.role m) "user") eqn:E.
    + apply str_eq_true in E. repeat split; intros H; first [exact E | reflexivity | discriminate H | contradiction].
    + apply str_eq_false in E. repeat split; intros H; first [exact E | reflexivity | discriminate H | contradiction].
Qed.

(** ** Routes *)

(** X22. The chat screen is guarded: from whatever route the visitor
    starts, the redirects come to rest after at most two of them; the chat
    screen is reached only from /chat or / by a visitor who is signed in
    once the session has loaded; a visitor who is not signed in ends on the
    login screen instead; while the session loads the spinner is shown. *)
Theorem chat_screen_requires_user
    (User : Type) (auth : App.Auth User) (route : App.Route) (fuel : nat) :
  3 <= fuel ->
  exists screen,
    App.settle fuel auth route = Some screen /\
    (screen = App.ChatScreen <->
     (route = App.chat_path \/ route = App.root_path)
     /\ App.loading auth = false /\ App.user auth <> None) /\
    (screen = App.LoginScreen <->
     route = App.login_path
     \/ ((route = App.chat_path \/ route = App.root_path)
         /\ App.loading auth = false /\ App.user auth = None)) /\
    (screen = App.LoadingSpinner <->
     (route = App.chat_path \/ route = App.root_path) /\ App.loading auth = true).
Proof.
  intros Hfuel.
  destruct fuel as [|[|[|fuel]]]; try lia.
  destruct auth as [[u|] [|]], route; simpl; eexists; (split; [reflexivity |]);
    repeat split; intros; simpl in *;
    repeat match goal with
           | H : _ /\ _ |- _ => destruct H
           | H : _ \/ _ |- _ => destruct H
           end;
    try discriminate; try congruence; auto.
Qed.

Lemma chat_screen_requires_user_witness :
  exists screen,
    App.settle 3 {| App.user := @None string; App.loading := false |} App.root_path
    = Some screen /\
    screen = App.LoginScreen.
Proof.
  destruct (chat_screen_requires_user string
              {| App.user := None; App.loading := false |} App.root_path 3)
    as (screen & Hs & _ & Hlogin & _).
  - lia.
  - exists screen. split; [exact Hs |]. apply Hlogin.
    right. repeat split. right. reflexivity.
Defined.
